(** * bernard: trigger ranking and outgoing-stack acceptance

    A shallow embedding of [bernard/engine/triggers.py] (the [Text] and
    [Choice] triggers) and of [Facebook.accept] / [Facebook.send] from
    [bernard/platforms/facebook/platform.py].

    Python objects that are mutated in place (the trigger instance, the
    stack) are threaded explicitly; exceptions are an outcome of their own.
    Scores are Python floats that the code under study only passes along and
    compares, so they are modelled as rationals. *)

From Stdlib Require Import String Ascii List ZArith QArith Bool Lia.
From stdpp Require Import base option list strings gmap.
Import ListNotations.
Close Scope Q_scope.
Open Scope string_scope.
Open Scope list_scope.

(** ** Exceptions and the state/exception monad *)

Inductive Exn : Type :=
| KeyError
| AttributeError
| TypeError
| UnacceptableStack.

Inductive outcome (A : Type) : Type :=
| Return (a : A)
| Raise (e : Exn).
Arguments Return {A} a.
Arguments Raise {A} e.

(** A computation over a mutable object of type [S]: it ends by returning
    or by raising, and in both cases leaves the object in some state. *)
Definition M (S A : Type) : Type := S -> outcome A * S.

Definition ret {S A} (a : A) : M S A := fun s => (Return a, s).
Definition raise {S A} (e : Exn) : M S A := fun s => (Raise e, s).
Definition bind {S A B} (m : M S A) (k : A -> M S B) : M S B :=
  fun s => match m s with
           | (Return a, s') => k a s'
           | (Raise e, s') => (Raise e, s')
           end.
Definition modify {S} (f : S -> S) : M S unit := fun s => (Return tt, f s).
Definition get {S} : M S S := fun s => (Return s, s).

(** [try: body / except KeyError: handler]. Only [KeyError] is caught;
    what [body] did to the object before raising stays done. *)
Definition try_except_KeyError {S A} (body handler : M S A) : M S A :=
  fun s => match body s with
           | (Raise KeyError, s') => handler s'
           | r => r
           end.

(** An optional value looked up where Python raises on absence. *)
Definition or_raise {S A} (e : Exn) (o : option A) : M S A :=
  match o with
  | Some a => ret a
  | None => raise e
  end.

Declare Scope py_scope.
Delimit Scope py_scope with py.
Notation "x <- m ;; k" := (bind m (fun x => k))
  (at level 100, m at next level, right associativity) : py_scope.
Notation "m ;;; k" := (bind m (fun _ => k))
  (at level 100, right associativity) : py_scope.

(** ** Python dictionaries that are iterated: insertion-ordered pairs *)

Fixpoint getitem {V} (d : list (string * V)) (key : string) : option V :=
  match d with
  | [] => None
  | (k, v) :: rest => if String.eqb k key then Some v else getitem rest key
  end.

Definition contains {V} (d : list (string * V)) (key : string) : bool :=
  match getitem d key with Some _ => true | None => false end.

(** ** bernard.layers *)

Module layers.

Inductive QuickReplyOption : Type :=
| TextOption (slug text : string)
| LocationOption.

Inductive BaseLayer : Type :=
| Text (text : string)
| RawText (text : string)
| QuickReply (slug : string)
| QuickRepliesList (options : list QuickReplyOption)
| Postback (payload : string).

(** The class of a layer, as in [layer.__class__]. *)
Inductive L : Type :=
| cText | cRawText | cQuickReply | cQuickRepliesList | cPostback.

Definition class_of (layer : BaseLayer) : L :=
  match layer with
  | Text _ => cText
  | RawText _ => cRawText
  | QuickReply _ => cQuickReply
  | QuickRepliesList _ => cQuickRepliesList
  | Postback _ => cPostback
  end.

Definition L_eqb (a b : L) : bool :=
  match a, b with
  | cText, cText | cRawText, cRawText | cQuickReply, cQuickReply
  | cQuickRepliesList, cQuickRepliesList | cPostback, cPostback => true
  | _, _ => false
  end.

Definition class_name (c : L) : string :=
  match c with
  | cText => "Text"
  | cRawText => "RawText"
  | cQuickReply => "QuickReply"
  | cQuickRepliesList => "QuickRepliesList"
  | cPostback => "Postback"
  end.

(** Attribute reads [layer.text] and [layer.slug]. *)
Definition text {S} (layer : BaseLayer) : M S string :=
  match layer with
  | Text t | RawText t => ret t
  | _ => raise AttributeError
  end.

Definition slug {S} (layer : BaseLayer) : M S string :=
  match layer with
  | QuickReply s => ret s
  | _ => raise AttributeError
  end.

(** Modelled from the spec: the [Stack] class of [bernard/layers], which
    is not among the sources. A stack is the ordered list of the layers
    of one message together with the [annotation] that
    [Facebook.accept] writes; [has_layer] tells whether a layer of the
    class is present and [get_layer] gives the first one, a [KeyError]
    when there is none. *)
Record Stack : Type := mkStack {
  layers : list BaseLayer;
  annotation : option string
}.

Definition Stack_init (ls : list BaseLayer) : Stack :=
  {| layers := ls; annotation := None |}.

Definition has_layer (stack : Stack) (class_ : L) : bool :=
  existsb (fun x => L_eqb (class_of x) class_) (layers stack).

Definition get_layer (stack : Stack) (class_ : L) : option BaseLayer :=
  List.find (fun x => L_eqb (class_of x) class_) (layers stack).

Definition set_annotation (name : string) (stack : Stack) : Stack :=
  {| layers := layers stack; annotation := Some name |}.

End layers.

(** ** bernard.engine.request *)

(** The metadata of one choice, a dictionary read by key: ['intent'] and
    ['text'], each a string or [None]. *)
Abbreviation Params := (gmap string (option string)).

(** The pending choices: slug to metadata, in the dictionary's order. *)
Abbreviation Choices := (list (string * Params)).

(** Modelled from the spec: the [Request] class of
    [bernard/engine/request.py], which is not among the sources. A request
    exposes the token sequence of the inbound message, the per-conversation
    transition register and a locale handle; [get_trans_reg] gives [None]
    for a name the register does not hold. *)
Record Request : Type := mkRequest {
  stack : layers.Stack;
  trans_reg : gmap string Choices;
  locale : string
}.

Definition has_layer (request : Request) (class_ : layers.L) : bool :=
  layers.has_layer (stack request) class_.

Definition get_layer {S} (request : Request) (class_ : layers.L)
  : M S layers.BaseLayer :=
  or_raise KeyError (layers.get_layer (stack request) class_).

Definition get_trans_reg (request : Request) (name : string) : option Choices :=
  trans_reg request !! name.

(** ** External collaborators of the triggers *)

(** An intent of [bernard.i18n.intents], known by its key. *)
Record Intent : Type := mkIntent { key : string }.

(** [getattr(intents, name)]. *)
Definition intents_getattr (name : string) : Intent := {| key := name |}.

(** The functions of [bernard.trigram] and [bernard.i18n] that the triggers
    call, taken as parameters:
    - [best_match q cs] is [Matcher([Trigram(x) for x in cs]) % Trigram(q)];
    - [strings i r] is [i.strings(r)], the locale-resolved strings of an
      intent;
    - [render t r] is [render(t, r)]. *)
Class Collaborators : Type := {
  best_match : string -> list string -> Q;
  strings : Intent -> Request -> list string;
  render : string -> Request -> string
}.

(** Python truthiness of a string-or-[None] value. *)
Definition truthy (v : option string) : bool :=
  match v with
  | None | Some "" => false
  | Some _ => true
  end.

(** Python's [a > b] on scores. *)
Definition Qgtb (a b : Q) : bool := negb (Qle_bool a b).

(** ** bernard.engine.triggers *)

(** [Text]: a trigger that matches an intent in a text message. *)
Module Text.

Record Self : Type := mkSelf {
  request : Request;
  intent : Intent
}.

Definition init (request : Request) (intent : Intent) : Self :=
  {| request := request; intent := intent |}.

Definition rank `{Collaborators} : M Self (option Q) :=
  (self <- get ;;
   if negb (has_layer (request self) layers.cRawText) then
     ret None
   else
     tl <- get_layer (request self) layers.cRawText ;;
     let candidates := strings (intent self) (request self) in
     text <- layers.text tl ;;
     ret (Some (best_match text candidates)))%py.

End Text.

(** [Choice]: triggers when the user makes one of the pending choices. *)
Module Choice.

Record Self : Type := mkSelf {
  request : Request;
  when : option string;
  slug : option string;
  chosen : option Params
}.

Definition init (request : Request) (when : option string) : Self :=
  {| request := request; when := when; slug := None; chosen := None |}.

Definition set_chosen (params : Params) : M Self unit :=
  modify (fun self =>
    {| request := request self; when := when self;
       slug := slug self; chosen := Some params |}).

Definition set_slug (s : string) : M Self unit :=
  modify (fun self =>
    {| request := request self; when := when self;
       slug := Some s; chosen := chosen self |}).

(** [self.when is None or self.when == s] *)
Definition when_is (when : option string) (s : option string) : bool :=
  match when with
  | None => true
  | Some w => match s with
              | Some s => String.eqb w s
              | None => false
              end
  end.

Definition _rank_qr (choices : Choices) : M Self (option Q) :=
  try_except_KeyError
    (self <- get ;;
     qr <- get_layer (request self) layers.cQuickReply ;;
     qr_slug <- layers.slug qr ;;
     params <- or_raise KeyError (getitem choices qr_slug) ;;
     set_chosen params ;;;
     set_slug qr_slug ;;;
     if when_is (when self) (Some qr_slug) then ret (Some 1%Q)
     else ret None)%py
    (ret None).

(** The candidate strings of one choice: the strings of its intent, then
    its literal text. Both keys are read with [params[...]]. *)
Definition candidates `{Collaborators} (request : Request) (params : Params)
  : M Self (list string) :=
  (intent <- or_raise KeyError (params !! "intent") ;;
   let strings0 :=
     match intent with
     | Some name =>
         if truthy intent then strings (intents_getattr name) request
         else []
     | None => []
     end in
   text <- or_raise KeyError (params !! "text") ;;
   match text with
   | Some t => if truthy text then ret (strings0 ++ [t]) else ret strings0
   | None => ret strings0
   end)%py.

(** The body of [for slug, params in choices.items()], with the local
    [best] as accumulator. *)
Fixpoint _rank_text_loop `{Collaborators} (request : Request) (tl_text : string)
    (items : Choices) (best : Q) : M Self Q :=
  match items with
  | [] => ret best
  | (slug, params) :: rest =>
      (cs <- candidates request params ;;
       let score := best_match (render tl_text request) cs in
       if Qgtb score best then
         set_chosen params ;;;
         set_slug slug ;;;
         _rank_text_loop request tl_text rest score
       else
         _rank_text_loop request tl_text rest best)%py
  end.

Definition _rank_text `{Collaborators} (choices : Choices) : M Self (option Q) :=
  (self <- get ;;
   tl <- get_layer (request self) layers.cRawText ;;
   tl_text <- layers.text tl ;;
   best <- _rank_text_loop (request self) tl_text choices 0%Q ;;
   self' <- get ;;
   if when_is (when self') (slug self') then ret (Some best)
   else ret None)%py.

(** [not choices]: [None] and the empty dictionary are falsy. *)
Definition not_ (choices : option Choices) : bool :=
  match choices with
  | None | Some [] => true
  | Some _ => false
  end.

Definition rank `{Collaborators} : M Self (option Q) :=
  (self <- get ;;
   let choices := get_trans_reg (request self) "choices" in
   if not_ choices then ret None
   else
     let choices := default [] choices in
     if has_layer (request self) layers.cQuickReply then
       _rank_qr choices
     else if has_layer (request self) layers.cRawText then
       _rank_text choices
     else ret None)%py.

End Choice.

(** ** bernard.platforms.facebook.platform *)

(** [stack.match_exp(pattern)], of [bernard/layers], taken as a parameter:
    whether the layers of the stack satisfy the expression. *)
Class StackMatcher : Type := {
  match_exp : layers.Stack -> string -> bool
}.

(** What a platform class declares: its [PATTERNS], in the order they are
    written, and the names of its attributes (for [getattr]). *)
Record PlatformClass : Type := mkPlatformClass {
  PATTERNS : list (string * string);
  attributes : list string
}.

(** The coroutine [func(request, stack)] that [send] returns, not yet run. *)
Record Coroutine : Type := mkCoroutine {
  func : string;
  args : Request * layers.Stack
}.

Module Facebook.

Definition cls : PlatformClass :=
  {| PATTERNS := [("text", "(Text|RawText)+ QuickRepliesList?")];
     attributes := ["PATTERNS"; "session"; "async_init"; "accept"; "send";
                    "handle_event"; "_access_token"; "_make_qr";
                    "_send_text"; "_handle_fb_response"; "_send";
                    "fsm_creates_task"; "_listeners"; "_register";
                    "on_message"; "_notify"] |}.

(** [for name, pattern in self.PATTERNS.items(): ...; return False] *)
Fixpoint accept_loop `{StackMatcher} (items : list (string * string))
  : M layers.Stack bool :=
  match items with
  | [] => ret false
  | (name, pattern) :: rest =>
      (stack <- get ;;
       if match_exp stack pattern then
         modify (layers.set_annotation name) ;;;
         ret true
       else accept_loop rest)%py
  end.

Definition accept `{StackMatcher} (self : PlatformClass) : M layers.Stack bool :=
  accept_loop (PATTERNS self).

(** [stack.annotation not in self.PATTERNS] *)
Definition annotation_not_in (annotation : option string)
    (patterns : list (string * string)) : bool :=
  match annotation with
  | Some name => negb (contains patterns name)
  | None => true
  end.

(** [getattr(self, name)] *)
Definition getattr {S} (self : PlatformClass) (name : string) : M S string :=
  if existsb (String.eqb name) (attributes self) then ret name
  else raise AttributeError.

Definition send `{StackMatcher} (self : PlatformClass) (request : Request)
  : M layers.Stack Coroutine :=
  (stack <- get ;;
   (if annotation_not_in (layers.annotation stack) (PATTERNS self) then
      accepted <- accept self ;;
      if negb accepted then raise UnacceptableStack else ret tt
    else ret tt) ;;;
   stack <- get ;;
   annotation <- or_raise TypeError (layers.annotation stack) ;;
   func <- getattr self ("_send_" ++ annotation)%string ;;
   ret {| func := func; args := (request, stack) |})%py.

End Facebook.

(** ** The collaborators as the specification describes them

    None of these is needed to state the properties of the triggers and of
    the platform, which hold for any collaborator; they give the concrete
    instances on which the properties are exercised. *)

Module trigram.

Definition lower (c : ascii) : ascii :=
  let n := nat_of_ascii c in
  if (65 <=? n)%nat && (n <=? 90)%nat then ascii_of_nat (n + 32) else c.

Fixpoint windows (cs : list ascii) : list string :=
  match cs with
  | a :: ((b :: c :: _) as rest) =>
      string_of_list_ascii [a; b; c] :: windows rest
  | _ => []
  end.

(** Modelled from the spec: the Trigram Index. The shingles of a string
    are the length-3 substrings of the case-folded string padded at its
    boundaries; the empty string has a single boundary shingle. *)
Definition shingles (text : string) : list string :=
  windows ([" "; " "]%char ++ map lower (list_ascii_of_string text)
           ++ [" "]%char).

Fixpoint remove_one (x : string) (l : list string) : option (list string) :=
  match l with
  | [] => None
  | y :: l' =>
      if String.eqb x y then Some l'
      else option_map (cons y) (remove_one x l')
  end.

(** The size of the intersection of two multisets. *)
Fixpoint overlap (a b : list string) : nat :=
  match a with
  | [] => 0
  | x :: a' =>
      match remove_one x b with
      | Some b' => S (overlap a' b')
      | None => overlap a' b
      end
  end.

(** Modelled from the spec: the Similarity Scorer,
    [2 * |intersection| / (|a| + |b|)] over multisets, and [0.0] when
    either side is empty. *)
Definition similarity (a b : list string) : Q :=
  match a, b with
  | [], _ | _, [] => 0%Q
  | _, _ =>
      Qred (Z.of_nat (2 * overlap a b) # Pos.of_nat (length a + length b))
  end.

Definition Qmax (a b : Q) : Q := if Qle_bool a b then b else a.

(** Modelled from the spec: the Candidate Matcher, the best similarity
    of the query over all candidates, [0.0] for no candidate. *)
Definition best_match (query : string) (candidates : list string) : Q :=
  let q := shingles query in
  fold_left (fun best c => Qmax best (similarity q (shingles c)))
            candidates 0%Q.

End trigram.

Module patterns.

Inductive Quantifier : Type := One | Plus | Opt.

(** An atom: the alternation of tags it admits, and its quantifier. *)
Definition Atom : Type := (list layers.L * Quantifier)%type.

Definition all_classes : list layers.L :=
  [layers.cText; layers.cRawText; layers.cQuickReply;
   layers.cQuickRepliesList; layers.cPostback].

Definition tag_of_name (name : list ascii) : option layers.L :=
  List.find (fun c => String.eqb (layers.class_name c)
                                 (string_of_list_ascii name))
            all_classes.

(** Cut a character list at every occurrence of [sep]. *)
Fixpoint split_on (sep : ascii) (cs : list ascii) : list (list ascii) :=
  match cs with
  | [] => [[]]
  | c :: cs' =>
      if Ascii.eqb c sep then [] :: split_on sep cs'
      else match split_on sep cs' with
           | w :: ws => (c :: w) :: ws
           | [] => [[c]]
           end
  end.

Fixpoint traverse {A B} (f : A -> option B) (l : list A) : option (list B) :=
  match l with
  | [] => Some []
  | x :: l' =>
      match f x, traverse f l' with
      | Some y, Some ys => Some (y :: ys)
      | _, _ => None
      end
  end.

Definition quantifier_of (w : list ascii) : list ascii * Quantifier :=
  match rev w with
  | "+"%char :: body => (rev body, Plus)
  | "?"%char :: body => (rev body, Opt)
  | _ => (w, One)
  end.

Definition parse_atom (w : list ascii) : option Atom :=
  let (body, q) := quantifier_of w in
  match body with
  | "("%char :: inner =>
      match rev inner with
      | ")"%char :: names =>
          option_map (fun tags => (tags, q))
                     (traverse tag_of_name (split_on "|"%char (rev names)))
      | _ => None
      end
  | _ => option_map (fun tag => ([tag], q)) (tag_of_name body)
  end.

(** Modelled from the spec: [compile], the Pattern Grammar. An expression
    is a whitespace-separated sequence of atoms, each a single tag or a
    parenthesized [|]-alternation of tags, with an optional [+] or [?];
    anything else is malformed. *)
Definition compile (expression : string) : option (list Atom) :=
  traverse parse_atom
    (filter (fun w => negb (Nat.eqb (length w) 0))
            (split_on " "%char (list_ascii_of_string expression))).

Definition admits (alternation : list layers.L) (tag : layers.L) : bool :=
  existsb (layers.L_eqb tag) alternation.

(** Modelled from the spec: [match], the Pattern Matcher. The pattern
    matches when its atoms, each repeated as its quantifier allows,
    consume the whole token sequence; a repetition that was taken too
    far is given back. *)
Fixpoint match_atoms (pattern : list Atom) (tokens : list layers.L) : bool :=
  match pattern with
  | [] => match tokens with [] => true | _ => false end
  | (alternation, q) :: pattern' =>
      let one :=
        match tokens with
        | t :: tokens' => admits alternation t && match_atoms pattern' tokens'
        | [] => false
        end in
      match q with
      | One => one
      | Opt => one || match_atoms pattern' tokens
      | Plus =>
          (fix more (tokens : list layers.L) : bool :=
             match tokens with
             | t :: tokens' =>
                 admits alternation t
                 && (more tokens' || match_atoms pattern' tokens')
             | [] => false
             end) tokens
      end
  end.

(** Modelled from the spec: [Stack.match_exp]. A malformed expression is
    refused when it is registered, so it matches nothing here. *)
Definition match_exp (stack : layers.Stack) (expression : string) : bool :=
  match compile expression with
  | Some pattern => match_atoms pattern (map layers.class_of (layers.layers stack))
  | None => false
  end.

End patterns.

(** The instances built from the specification's description. [strings]
    resolves the intents of a small sample catalogue; [render] leaves a
    plain string as it is. *)
Definition sample_strings (intent : Intent) (request : Request) : list string :=
  if String.eqb (key intent) "YES" then ["yes"; "yeah"; "sure"]
  else if String.eqb (key intent) "NO" then ["no"; "nope"]
  else [].

#[export] Instance spec_collaborators : Collaborators :=
  {| best_match := trigram.best_match;
     strings := sample_strings;
     render := fun text _ => text |}.

#[export] Instance spec_matcher : StackMatcher :=
  {| match_exp := patterns.match_exp |}.

(** ** Vocabulary of the statements *)

(** The trigger once the choice of slug [s] has been staged on it. *)
Definition staged (self : Choice.Self) (s : string) (params : Params)
  : Choice.Self :=
  {| Choice.request := Choice.request self;
     Choice.when := Choice.when self;
     Choice.slug := Some s;
     Choice.chosen := Some params |}.

(** A choice record that carries both keys, and one that misses a key. *)
Definition complete (params : Params) : Prop :=
  is_Some (params !! "intent") /\ is_Some (params !! "text").

Definition incomplete (params : Params) : Prop :=
  params !! "intent" = None \/ params !! "text" = None.

(** The candidate strings of a choice, in the words of the specification:
    the strings of its intent, plus its literal text when present. *)
Definition candidate_strings `{Collaborators} (request : Request)
    (params : Params) : list string :=
  match params !! "intent" with
  | Some (Some (String a name)) =>
      strings (intents_getattr (String a name)) request
  | _ => []
  end
  ++ match params !! "text" with
     | Some (Some (String a t)) => [String a t]
     | _ => []
     end.

(** The score of a choice for the raw text [t]: the best match of the
    rendered text against the candidate strings of the choice. *)
Definition score `{Collaborators} (request : Request) (t : string)
    (params : Params) : Q :=
  best_match (render t request) (candidate_strings request params).

(** No pattern of [items] matches the stack. *)
Definition none_matches `{StackMatcher} (stack : layers.Stack)
    (items : list (string * string)) : Prop :=
  Forall (fun c => match_exp stack c.2 = false) items.

(** [name] is the first pattern of [items] that matches the stack. *)
Definition first_match `{StackMatcher} (stack : layers.Stack)
    (items : list (string * string)) (name : string) : Prop :=
  exists pre pattern post,
    items = pre ++ (name, pattern) :: post
    /\ none_matches stack pre
    /\ match_exp stack pattern = true.

(** Every registered pattern has its send routine [_send_<name>]. *)
Definition handlers_complete (self : PlatformClass) : Prop :=
  Forall (fun c => existsb (String.eqb ("_send_" ++ c.1)%string)
                           (attributes self) = true)
         (PATTERNS self).

(** ** Sample data *)

(** A request made of the given layers, with the given pending choices in
    its transition register (or none). *)
Definition request_of (ls : list layers.BaseLayer) (choices : option Choices)
  : Request :=
  {| stack := layers.Stack_init ls;
     trans_reg := match choices with
                  | Some c => {[ "choices" := c ]}
                  | None => ∅
                  end;
     locale := "en" |}.

Definition yes_params : Params :=
  {[ "intent" := Some "YES"; "text" := Some "Yes" ]}.

Definition no_params : Params :=
  {[ "intent" := None; "text" := Some "No" ]}.

Definition yes_no : Choices := [("yes", yes_params); ("no", no_params)].

(** Choices whose records miss the ['intent'] key. *)
Definition text_only : Choices :=
  [("yes", {[ "text" := Some "Yes" ]}); ("no", {[ "text" := Some "No" ]})].

(** A single choice, with a literal text and no intent. *)
Definition only_yes : Choices :=
  [("yes", {[ "intent" := None; "text" := Some "Yes" ]})].

Definition req_qr : Request :=
  request_of [layers.RawText "yes"; layers.QuickReply "no"] (Some yes_no).

Definition req_unknown_qr : Request :=
  request_of [layers.RawText "yes"; layers.QuickReply "maybe"] (Some yes_no).

Definition req_yess : Request :=
  request_of [layers.RawText "yess"] (Some yes_no).

Definition req_zzz : Request :=
  request_of [layers.RawText "zzz"] (Some only_yes).

Definition req_text_only : Request :=
  request_of [layers.RawText "yess"] (Some text_only).

Definition req_postback : Request :=
  request_of [layers.Postback "menu"] (Some yes_no).

Definition req_no_register : Request :=
  request_of [layers.RawText "yes"] None.

Definition req_empty_choices : Request :=
  request_of [layers.RawText "yes"] (Some []).

Definition text_stack : layers.Stack :=
  layers.Stack_init [layers.RawText "a"; layers.RawText "b";
                     layers.QuickRepliesList []].

Definition postback_stack : layers.Stack :=
  layers.Stack_init [layers.Postback "menu"].

(** The raw-text rule in the words of C2: a choice with the highest score
    is kept, and that score is returned when [when] is unset or equal to
    the slug of the kept choice, no opinion otherwise. *)
Definition keeps_highest_choice `{Collaborators} (request : Request)
    (when : option string) (choices : Choices) (t : string) : Prop :=
  exists s params,
    In (s, params) choices
    /\ Forall (fun c => (score request t c.2 <= score request t params)%Q)
              choices
    /\ Choice.rank (Choice.init request when) =
         (Return (if Choice.when_is when (Some s)
                  then Some (score request t params) else None),
          staged (Choice.init request when) s params).

(** A platform class with two patterns that overlap. *)
Definition two_patterns : PlatformClass :=
  {| PATTERNS := [("text", "(Text|RawText)+ QuickRepliesList?");
                  ("plain", "(Text|RawText)+")];
     attributes := ["_send_text"; "_send_plain"] |}.

(** * The rest of the triggers and of the Facebook platform *)

(** ** bernard.engine.triggers: the catch-all trigger *)

(** [Anything]: a trigger that always matches. *)
Module Anything.

Record Self : Type := mkSelf { request : Request }.

Definition init (request : Request) : Self := {| request := request |}.

Definition rank : M Self (option Q) := ret (Some 1%Q).

End Anything.

(** ** bernard.platforms.facebook.platform: users, conversations, messages *)

Module FacebookUser.

Definition _fbid_to_id (fbid : string) : string :=
  ("facebook:user:" ++ fbid)%string.

Record Self : Type := mkSelf { fbid : string; id : string }.

Definition init (fbid : string) : Self :=
  {| fbid := fbid; id := _fbid_to_id fbid |}.

End FacebookUser.

Module FacebookConversation.

Definition _fbid_to_id (fbid : string) : string :=
  ("facebook:conversation:user:" ++ fbid)%string.

Record Self : Type := mkSelf { fbid : string; id : string }.

Definition init (fbid : string) : Self :=
  {| fbid := fbid; id := _fbid_to_id fbid |}.

End FacebookConversation.

(** The JSON event that Facebook posts, with the shape of the Messenger
    webhook: any key may be missing, and a value that is there has its
    type. [msg_text] is ['text' in msg], [msg_quick_reply] the dictionary
    under ['quick_reply']; [sender] and [recipient] are the dictionaries
    under these keys. *)
Record MessageDict : Type := mkMessageDict {
  msg_text : option string;
  msg_quick_reply : option (gmap string string)
}.

Record Event : Type := mkEvent {
  sender : option (gmap string string);
  recipient : option (gmap string string);
  message : option MessageDict
}.

(** [d[k1][k2]] on the event, where [d[k1]] is [o]: a [KeyError] when either
    key is missing. *)
Definition subscript (o : option (gmap string string)) (k : string)
  : outcome string :=
  match o with
  | Some d =>
      match d !! k with
      | Some v => Return v
      | None => Raise KeyError
      end
  | None => Raise KeyError
  end.

Definition outcome_map {A B} (f : A -> B) (o : outcome A) : outcome B :=
  match o with
  | Return a => Return (f a)
  | Raise e => Raise e
  end.

Module FacebookMessage.

Definition get_platform (_event : Event) : string := "facebook".

Definition get_user (_event : Event) : outcome FacebookUser.Self :=
  outcome_map FacebookUser.init (subscript (sender _event) "id").

Definition get_conversation (_event : Event)
  : outcome FacebookConversation.Self :=
  outcome_map FacebookConversation.init (subscript (sender _event) "id").

Definition get_layers (_event : Event) : outcome (list layers.BaseLayer) :=
  let out := [] in
  let msg := default {| msg_text := None; msg_quick_reply := None |}
                     (message _event) in
  let out := match msg_text msg with
             | Some text => out ++ [layers.RawText text]
             | None => out
             end in
  match msg_quick_reply msg with
  | Some quick_reply =>
      outcome_map (fun payload => out ++ [layers.QuickReply payload])
                  (subscript (Some quick_reply) "payload")
  | None => Return out
  end.

Definition get_page_id (_event : Event) : outcome string :=
  subscript (recipient _event) "id".

End FacebookMessage.

(** ** bernard.platforms.facebook.platform: sending *)

(** What the sending code can raise: the built-in exceptions, [IndexError],
    and the platform's own [PlatformOperationError] with its message. *)
Inductive Error : Type :=
| Builtin (e : Exn)
| IndexError
| PlatformOperationError (message : string).

Inductive result (A : Type) : Type :=
| Ok (a : A)
| Fail (e : Error).
Arguments Ok {A} a.
Arguments Fail {A} e.

Definition of_outcome {A} (o : outcome A) : result A :=
  match o with
  | Return a => Ok a
  | Raise e => Fail (Builtin e)
  end.

(** The request as the platform reads it: the part the triggers use, the
    Facebook event it was made from ([request.message]) and the
    conversation ([request.conversation]). *)
Module FacebookRequest.

Record Self : Type := mkSelf {
  request : Request;
  message : Event;
  conversation : FacebookConversation.Self
}.

End FacebookRequest.

(** The dictionary under ['message'] of an outgoing call: ['text'], and
    ['quick_replies'] when it was set. *)
Record Content : Type := mkContent {
  content_text : string;
  content_quick_replies : option (list (gmap string string))
}.

(** One call of [session.post]. *)
Record Post : Type := mkPost {
  url : string;
  access_token : string;
  content_type : string;
  recipient_id : string;
  post_message : Content
}.

(** The answer of the HTTP call: its status, and its body as [json()]
    decodes it ([None] when decoding raises). *)
Record Response : Type := mkResponse {
  status : nat;
  json : option (gmap string (gmap string string))
}.

(** What the sending code takes from outside: [settings.FACEBOOK], the
    list of configured pages; [textwrap.wrap]; and the Facebook server,
    which answers a call knowing the calls made before. *)
Class Outside : Type := {
  FACEBOOK : list (gmap string string);
  wrap : string -> nat -> list string;
  respond : list Post -> Post -> Response
}.

(** A computation that makes HTTP calls: it appends to the list of the
    calls made so far, and returns or raises. *)
Definition IO (A : Type) : Type := list Post -> result A * list Post.

Definition io_ret {A} (a : A) : IO A := fun log => (Ok a, log).
Definition io_raise {A} (e : Error) : IO A := fun log => (Fail e, log).
Definition io_lift {A} (r : result A) : IO A := fun log => (r, log).
Definition io_bind {A B} (m : IO A) (k : A -> IO B) : IO B :=
  fun log => match m log with
             | (Ok a, log') => k a log'
             | (Fail e, log') => (Fail e, log')
             end.

Declare Scope io_scope.
Delimit Scope io_scope with io.
Notation "x <- m ;; k" := (io_bind m (fun x => k))
  (at level 100, m at next level, right associativity) : io_scope.
Notation "m ;;; k" := (io_bind m (fun _ => k))
  (at level 100, right associativity) : io_scope.

Definition MESSAGES_ENDPOINT : string :=
  "https://graph.facebook.com/v2.6/me/messages".

(** The double-quote character of the messages. *)
Definition dquote : string := String (ascii_of_nat 34) EmptyString.

Module FacebookSend.

Definition not_configured (page_id : string) : string :=
  ("Trying to get access token of the page " ++ dquote ++ page_id ++ dquote
   ++ ", which is not configured.")%string.

(** [for page in settings.FACEBOOK: ...], then the [raise]. *)
Fixpoint _access_token_loop (pages : list (gmap string string))
    (page_id : string) : result string :=
  match pages with
  | [] => Fail (PlatformOperationError (not_configured page_id))
  | page :: rest =>
      match page !! "page_id" with
      | None => Fail (Builtin KeyError)
      | Some id =>
          if String.eqb id page_id then
            match page !! "page_token" with
            | Some token => Ok token
            | None => Fail (Builtin KeyError)
            end
          else _access_token_loop rest page_id
      end
  end.

Definition _access_token `{Outside} (request : FacebookRequest.Self)
  : result string :=
  match FacebookMessage.get_page_id (FacebookRequest.message request) with
  | Return page_id => _access_token_loop FACEBOOK page_id
  | Raise e => Fail (Builtin e)
  end.

Definition _make_qr `{Collaborators} (qr : layers.QuickReplyOption)
    (request : FacebookRequest.Self) : gmap string string :=
  match qr with
  | layers.TextOption slug text =>
      {[ "content_type" := "text";
         "title" := render text (FacebookRequest.request request);
         "payload" := slug ]}
  | layers.LocationOption =>
      {[ "content_type" := "location" ]}
  end.

(** [(await response.json())['error']['message']], or ['(nothing)'] when
    anything in it raises. *)
Definition error_message (response : Response) : string :=
  match json response with
  | Some body =>
      match body !! "error" with
      | Some error => default "(nothing)" (error !! "message")
      | None => "(nothing)"
      end
  | None => "(nothing)"
  end.

Definition _handle_fb_response (response : Response) : result unit :=
  let ok := Nat.eqb (status response) 200 in
  if negb ok then
    Fail (PlatformOperationError
            ("Facebook says: " ++ dquote ++ error_message response ++ dquote)%string)
  else Ok tt.

Definition _send `{Outside} (request : FacebookRequest.Self) (content : Content)
  : IO unit :=
  (token <- io_lift (_access_token request) ;;
   fun log =>
     let post := {| url := MESSAGES_ENDPOINT;
                    access_token := token;
                    content_type := "application/json";
                    recipient_id := FacebookConversation.fbid
                                      (FacebookRequest.conversation request);
                    post_message := content |} in
     (_handle_fb_response (respond log post), log ++ [post]))%io.

(** The text parts of a stack: each [Text] or [RawText] layer, rendered and
    wrapped at 320 characters, in the order of the layers. *)
Definition parts_of `{Collaborators} `{Outside} (request : FacebookRequest.Self)
    (stack : layers.Stack) : list string :=
  flat_map (fun layer =>
              match layer with
              | layers.Text text | layers.RawText text =>
                  wrap (render text (FacebookRequest.request request)) 320
              | _ => []
              end)
           (layers.layers stack).

(** [for part in parts[:-1]: await self._send(request, {'text': part})] *)
Fixpoint _send_each `{Outside} (request : FacebookRequest.Self)
    (parts : list string) : IO unit :=
  match parts with
  | [] => io_ret tt
  | part :: rest =>
      (_send request {| content_text := part; content_quick_replies := None |} ;;;
       _send_each request rest)%io
  end.

(** The last message: the last part, with the quick replies of the stack
    when it has a [QuickRepliesList]. *)
Definition last_content `{Collaborators} (request : FacebookRequest.Self)
    (stack : layers.Stack) (part : string) : Content :=
  {| content_text := part;
     content_quick_replies :=
       match layers.get_layer stack layers.cQuickRepliesList with
       | Some (layers.QuickRepliesList options) =>
           Some (map (fun o => _make_qr o request) options)
       | _ => None
       end |}.

Definition _send_text `{Collaborators} `{Outside}
    (request : FacebookRequest.Self) (stack : layers.Stack) : IO unit :=
  (let parts := parts_of request stack in
   _send_each request (removelast parts) ;;;
   match last parts with
   | None => io_raise IndexError
   | Some part => _send request (last_content request stack part)
   end)%io.

End FacebookSend.

(** ** bernard.engine.platform *)

Module Platform.

Section Callbacks.

(** The types of the messages and of the responders, and of what a
    callback gives once awaited. A callback is taken as a function of its
    three arguments. *)
Context {BaseMessage Responder Value : Type}.

Definition MessageCallback : Type := BaseMessage -> Responder -> bool -> Value.

Record Self : Type := mkSelf {
  fsm_creates_task : bool;
  _listeners : list MessageCallback;
  _register : option Value
}.

Definition init (fsm_creates_task : bool) : Self :=
  {| fsm_creates_task := fsm_creates_task;
     _listeners := [];
     _register := None |}.

Definition on_message (cb : MessageCallback) (self : Self) : Self :=
  {| fsm_creates_task := fsm_creates_task self;
     _listeners := _listeners self ++ [cb];
     _register := _register self |}.

(** [for cb in self._listeners: ...], on the register. *)
Fixpoint _notify_loop (fsm_creates_task : bool) (message : BaseMessage)
    (responder : Responder) (cbs : list MessageCallback)
    (register : option Value) : option Value :=
  match cbs with
  | [] => register
  | cb :: rest =>
      let coro := cb message responder fsm_creates_task in
      if negb fsm_creates_task then
        _notify_loop fsm_creates_task message responder rest (Some coro)
      else
        _notify_loop fsm_creates_task message responder rest register
  end.

Definition _notify (message : BaseMessage) (responder : Responder)
    (self : Self) : Self :=
  {| fsm_creates_task := fsm_creates_task self;
     _listeners := _listeners self;
     _register := _notify_loop (fsm_creates_task self) message responder
                    (_listeners self) (_register self) |}.

End Callbacks.

End Platform.

(** ** Vocabulary of the further statements *)

(** What the loop of [_rank_text] computes, apart from the trigger it
    stages on: the best score (or the [KeyError]) and the choice it kept
    last, [kept] when it kept none. *)
Fixpoint kept_by_loop `{Collaborators} (request : Request) (t : string)
    (items : Choices) (best : Q) (kept : option (string * Params))
  : outcome Q * option (string * Params) :=
  match items with
  | [] => (Return best, kept)
  | (slug, params) :: rest =>
      match params !! "intent", params !! "text" with
      | Some _, Some _ =>
          if Qgtb (score request t params) best then
            kept_by_loop request t rest (score request t params)
                         (Some (slug, params))
          else kept_by_loop request t rest best kept
      | _, _ => (Raise KeyError, kept)
      end
  end.

(** The trigger with the kept choice staged on it, if any. *)
Definition restage (self : Choice.Self) (kept : option (string * Params))
  : Choice.Self :=
  match kept with
  | Some (s, params) => staged self s params
  | None => self
  end.

(** The call that [_send] makes for [content] with the token of the page. *)
Definition post_of (request : FacebookRequest.Self) (token : string)
    (content : Content) : Post :=
  {| url := MESSAGES_ENDPOINT;
     access_token := token;
     content_type := "application/json";
     recipient_id := FacebookConversation.fbid
                       (FacebookRequest.conversation request);
     post_message := content |}.

(** A message that is a text and nothing else. *)
Definition only_text (part : string) : Content :=
  {| content_text := part; content_quick_replies := None |}.

(** A configured page that is not the page of id [page_id]. *)
Definition other_page (page_id : string) (page : gmap string string) : Prop :=
  exists id, page !! "page_id" = Some id /\ id <> page_id.

(** The error that a refused call ends in. *)
Definition refused (response : Response) : Error :=
  PlatformOperationError
    ("Facebook says: " ++ dquote ++ FacebookSend.error_message response
     ++ dquote)%string.

(** The text bubbles of a list of layers, as the docstring of
    [_send_text] has them: each [Text] or [RawText] layer gives the lines
    its rendered text wraps to at 320 characters, in the order of the
    layers; the other layers give none. *)
Fixpoint bubbles `{Collaborators} `{Outside} (request : FacebookRequest.Self)
    (ls : list layers.BaseLayer) : list string :=
  match ls with
  | [] => []
  | layers.Text text :: rest | layers.RawText text :: rest =>
      wrap (render text (FacebookRequest.request request)) 320
      ++ bubbles request rest
  | _ :: rest => bubbles request rest
  end.

(** The options of the first [QuickRepliesList] among the layers. *)
Fixpoint quick_reply_options (ls : list layers.BaseLayer)
  : option (list layers.QuickReplyOption) :=
  match ls with
  | [] => None
  | layers.QuickRepliesList options :: _ => Some options
  | _ :: rest => quick_reply_options rest
  end.

(** The dictionary Facebook expects for one option: a text option has the
    content type ["text"], its rendered text as title and its slug as
    payload; a location option has the content type ["location"] only. *)
Definition quick_reply_dict `{Collaborators} (request : FacebookRequest.Self)
    (option : layers.QuickReplyOption) : gmap string string :=
  match option with
  | layers.TextOption slug text =>
      list_to_map [("content_type", "text");
                   ("title", render text (FacebookRequest.request request));
                   ("payload", slug)]
  | layers.LocationOption => list_to_map [("content_type", "location")]
  end.

(** The call for a bubble that is not the last: its text and nothing else. *)
Definition plain_call (request : FacebookRequest.Self) (token part : string)
  : Post :=
  {| url := "https://graph.facebook.com/v2.6/me/messages";
     access_token := token;
     content_type := "application/json";
     recipient_id := FacebookConversation.fbid
                       (FacebookRequest.conversation request);
     post_message := {| content_text := part;
                        content_quick_replies := None |} |}.

(** The call for the last bubble: its text, and the quick replies of the
    layers when they hold a [QuickRepliesList]. *)
Definition final_call `{Collaborators} (request : FacebookRequest.Self)
    (token : string) (ls : list layers.BaseLayer) (part : string) : Post :=
  {| url := "https://graph.facebook.com/v2.6/me/messages";
     access_token := token;
     content_type := "application/json";
     recipient_id := FacebookConversation.fbid
                       (FacebookRequest.conversation request);
     post_message :=
       {| content_text := part;
          content_quick_replies :=
            option_map (map (quick_reply_dict request))
                       (quick_reply_options ls) |} |}.

(** Facebook answers 200 to each of [calls], made in this order after the
    calls of [log]. *)
Definition all_accepted `{Outside} (log calls : list Post) : Prop :=
  forall before p after,
    calls = before ++ p :: after ->
    status (respond (log ++ before) p) = 200.

(** The message [m] that a refusal is reported with: the ['message'] under
    ['error'] of the answer's body, or ['(nothing)'] when the body cannot
    be decoded or does not hold one. *)
Definition reported (response : Response) (m : string) : Prop :=
  (exists body error,
     json response = Some body
     /\ body !! "error" = Some error
     /\ error !! "message" = Some m)
  \/ (m = "(nothing)"
      /\ (json response = None
          \/ (exists body, json response = Some body
                           /\ body !! "error" = None)
          \/ (exists body error, json response = Some body
                                 /\ body !! "error" = Some error
                                 /\ error !! "message" = None))).

(** The error of a refusal reported with [m]. *)
Definition facebook_says (m : string) : Error :=
  PlatformOperationError ("Facebook says: " ++ dquote ++ m ++ dquote)%string.

(** ** Sample data for the further statements *)

(** A stand-in for [textwrap.wrap]: it cuts the text every [width]
    characters, and gives no line for the empty text. *)
Fixpoint chunk (fuel width : nat) (cs : list ascii) : list string :=
  match fuel with
  | O => []
  | S fuel' =>
      match cs with
      | [] => []
      | _ => string_of_list_ascii (firstn width cs)
             :: chunk fuel' width (skipn width cs)
      end
  end.

Definition sample_wrap (text : string) (width : nat) : list string :=
  chunk (String.length text) width (list_ascii_of_string text).

Definition sample_pages : list (gmap string string) :=
  [ {[ "page_id" := "page-0"; "page_token" := "token-0" ]};
    {[ "page_id" := "page-1"; "page_token" := "token-1" ]} ].

(** A server that accepts every call. *)
Definition outside_ok : Outside :=
  {| FACEBOOK := sample_pages;
     wrap := sample_wrap;
     respond := fun _ _ => {| status := 200; json := None |} |}.

(** A server that refuses the second call it gets. *)
Definition outside_refusing : Outside :=
  {| FACEBOOK := sample_pages;
     wrap := sample_wrap;
     respond := fun log _ =>
       if Nat.eqb (length log) 1 then
         {| status := 400;
            json := Some {[ "error" := {[ "message" := "slow down" ]} ]} |}
       else {| status := 200; json := None |} |}.

Definition sample_event (page : string) : Event :=
  {| sender := Some {[ "id" := "user-1" ]};
     recipient := Some {[ "id" := page ]};
     message := Some {| msg_text := Some "hello";
                        msg_quick_reply := Some {[ "payload" := "yes" ]} |} |}.

Definition sample_fb_request (page : string) : FacebookRequest.Self :=
  {| FacebookRequest.request := req_qr;
     FacebookRequest.message := sample_event page;
     FacebookRequest.conversation := FacebookConversation.init "user-1" |}.

Definition hello_stack : layers.Stack :=
  layers.Stack_init
    [layers.Text "hello"; layers.RawText "world";
     layers.QuickRepliesList [layers.TextOption "yes" "Yes";
                              layers.LocationOption]].

Definition empty_text_stack : layers.Stack :=
  layers.Stack_init [layers.RawText EmptyString].

Definition req_hello_yes : Request :=
  request_of [layers.RawText "hello"; layers.QuickReply "yes"] (Some yes_no).

(** Two callbacks of a platform whose messages, responders and values are
    numbers. *)
Definition cb_sum : @Platform.MessageCallback nat nat nat :=
  fun message responder _ => message + responder.

Definition cb_product : @Platform.MessageCallback nat nat nat :=
  fun message responder _ => message * responder.

(** * Properties *)

(** ** Layers of a stack *)

Section StackLemmas.

Variable st : layers.Stack.
Variable c : layers.L.

Lemma L_eqb_eq (a b : layers.L) : layers.L_eqb a b = true <-> a = b.
Proof. destruct a, b; simpl; split; congruence. Qed.

Lemma get_layer_class (x : layers.BaseLayer) :
  layers.get_layer st c = Some x -> layers.class_of x = c.
Proof.
  unfold layers.get_layer. intros Hf.
  apply find_some in Hf as [_ Hc]. now apply L_eqb_eq.
Qed.

Lemma get_layer_has (x : layers.BaseLayer) :
  layers.get_layer st c = Some x -> layers.has_layer st c = true.
Proof.
  unfold layers.get_layer, layers.has_layer. intros Hf.
  apply find_some in Hf as [Hin Hc]. apply existsb_exists. eauto.
Qed.

Lemma has_layer_get :
  layers.has_layer st c = true ->
  exists x, layers.get_layer st c = Some x.
Proof.
  unfold layers.get_layer, layers.has_layer. intros He.
  apply existsb_exists in He as (x & Hin & Hc).
  destruct (find _ _) eqn:Hf; [eauto|].
  eapply find_none in Hf; [|exact Hin]. simpl in Hf. congruence.
Qed.

Lemma has_layer_false_get :
  layers.has_layer st c = false -> layers.get_layer st c = None.
Proof.
  intros Hh. destruct (layers.get_layer st c) eqn:Hg; [|reflexivity].
  apply get_layer_has in Hg. congruence.
Qed.

End StackLemmas.

Lemma raw_text_layer (st : layers.Stack) (x : layers.BaseLayer) :
  layers.get_layer st layers.cRawText = Some x ->
  exists t, x = layers.RawText t.
Proof.
  intros Hg. apply get_layer_class in Hg. destruct x; try discriminate. eauto.
Qed.

Lemma quick_reply_layer (st : layers.Stack) (x : layers.BaseLayer) :
  layers.get_layer st layers.cQuickReply = Some x ->
  exists s, x = layers.QuickReply s.
Proof.
  intros Hg. apply get_layer_class in Hg. destruct x; try discriminate. eauto.
Qed.

(** Unfolding of the monad's operations. *)
Ltac run :=
  unfold get_layer, has_layer, layers.text, layers.slug, or_raise,
    try_except_KeyError, bind, get, ret, raise, modify in *.

(** ** The Text trigger *)

Section TextTrigger.

Context `{Collaborators}.

Lemma Text_rank_no_raw_text (self : Text.Self) :
  has_layer (Text.request self) layers.cRawText = false ->
  Text.rank self = (Return None, self).
Proof. intros Hh. unfold Text.rank. run. now rewrite Hh. Qed.

Lemma Text_rank_raw_text (self : Text.Self) (t : string) :
  layers.get_layer (stack (Text.request self)) layers.cRawText
    = Some (layers.RawText t) ->
  Text.rank self =
    (Return (Some (best_match t
                     (strings (Text.intent self) (Text.request self)))),
     self).
Proof.
  intros Hg. unfold Text.rank. run.
  rewrite (get_layer_has _ _ _ Hg). simpl. now rewrite Hg.
Qed.

(** C3. Without a raw-text token the Text trigger has no opinion; with
    one, it returns exactly the best-match score of the token's text
    against the locale-resolved strings of its intent, and a request that
    has a raw-text token always yields such a text. The trigger itself is
    left as it was. *)
Theorem Text_rank_spec (self : Text.Self) :
  (has_layer (Text.request self) layers.cRawText = false ->
   Text.rank self = (Return None, self))
  /\ (has_layer (Text.request self) layers.cRawText = true ->
      exists t,
        layers.get_layer (stack (Text.request self)) layers.cRawText
          = Some (layers.RawText t)
        /\ Text.rank self =
             (Return (Some (best_match t
                (strings (Text.intent self) (Text.request self)))),
              self)).
Proof.
  split; [apply Text_rank_no_raw_text|].
  intros Hh. apply has_layer_get in Hh as [x Hx].
  destruct (raw_text_layer _ _ Hx) as [t ->].
  exists t. split; [exact Hx|]. now apply Text_rank_raw_text.
Qed.

End TextTrigger.

(** ** The Choice trigger: dispatch and the quick-reply branch *)

Section ChoiceTrigger.

Context `{Collaborators}.

Lemma not_nonempty (choices : Choices) :
  choices <> [] -> Choice.not_ (Some choices) = false.
Proof. destruct choices; [congruence | reflexivity]. Qed.

Lemma Choice_rank_no_choices (self : Choice.Self) :
  Choice.not_ (get_trans_reg (Choice.request self) "choices") = true ->
  Choice.rank self = (Return None, self).
Proof. intros Hn. unfold Choice.rank. run. now rewrite Hn. Qed.

(** With pending choices, a quick-reply token decides alone. *)
Lemma Choice_rank_qr_branch (self : Choice.Self) (choices : Choices) :
  get_trans_reg (Choice.request self) "choices" = Some choices ->
  choices <> [] ->
  has_layer (Choice.request self) layers.cQuickReply = true ->
  Choice.rank self = Choice._rank_qr choices self.
Proof.
  intros Hc Hne Hq. unfold Choice.rank. run.
  rewrite Hc, (not_nonempty _ Hne), Hq. reflexivity.
Qed.

Lemma Choice_rank_text_branch (self : Choice.Self) (choices : Choices) :
  get_trans_reg (Choice.request self) "choices" = Some choices ->
  choices <> [] ->
  has_layer (Choice.request self) layers.cQuickReply = false ->
  has_layer (Choice.request self) layers.cRawText = true ->
  Choice.rank self = Choice._rank_text choices self.
Proof.
  intros Hc Hne Hq Ht. unfold Choice.rank. run.
  rewrite Hc, (not_nonempty _ Hne), Hq, Ht. reflexivity.
Qed.

Lemma Choice_rank_no_token (self : Choice.Self) :
  has_layer (Choice.request self) layers.cQuickReply = false ->
  has_layer (Choice.request self) layers.cRawText = false ->
  Choice.rank self = (Return None, self).
Proof.
  intros Hq Ht. unfold Choice.rank. run. rewrite Hq, Ht.
  now destruct (Choice.not_ _).
Qed.

Lemma rank_qr_known (self : Choice.Self) (choices : Choices)
    (s : string) (params : Params) :
  layers.get_layer (stack (Choice.request self)) layers.cQuickReply
    = Some (layers.QuickReply s) ->
  getitem choices s = Some params ->
  Choice._rank_qr choices self =
    (Return (if Choice.when_is (Choice.when self) (Some s)
             then Some 1%Q else None),
     staged self s params).
Proof.
  intros Hg Hi. unfold Choice._rank_qr, Choice.set_chosen, Choice.set_slug.
  run. rewrite Hg. simpl. rewrite Hi. simpl.
  now destruct (Choice.when_is _ _).
Qed.

Lemma rank_qr_unknown (self : Choice.Self) (choices : Choices) (s : string) :
  layers.get_layer (stack (Choice.request self)) layers.cQuickReply
    = Some (layers.QuickReply s) ->
  getitem choices s = None ->
  Choice._rank_qr choices self = (Return None, self).
Proof.
  intros Hg Hi. unfold Choice._rank_qr. run. rewrite Hg. simpl.
  now rewrite Hi.
Qed.

Lemma when_is_same (w : option string) (s : string) :
  w = None \/ w = Some s -> Choice.when_is w (Some s) = true.
Proof. intros [-> | ->]; simpl; [reflexivity | apply String.eqb_refl]. Qed.

Lemma when_is_other (w s : string) :
  w <> s -> Choice.when_is (Some w) (Some s) = false.
Proof. intros Hne. simpl. now apply String.eqb_neq. Qed.

(** C1. When the request has a quick-reply token whose slug is a key of
    the (non-empty) pending choices, [Choice.rank] returns 1.0 if [when]
    is unset or equal to that slug and has no opinion if [when] is set to
    another slug. Nothing is assumed about a raw-text token: the
    quick-reply branch is taken whether or not there is one. *)
Theorem Choice_rank_quick_reply (self : Choice.Self) (choices : Choices)
    (s : string) (params : Params) :
  get_trans_reg (Choice.request self) "choices" = Some choices ->
  choices <> [] ->
  layers.get_layer (stack (Choice.request self)) layers.cQuickReply
    = Some (layers.QuickReply s) ->
  getitem choices s = Some params ->
  (Choice.when self = None \/ Choice.when self = Some s ->
   Choice.rank self = (Return (Some 1%Q), staged self s params))
  /\ (forall w, Choice.when self = Some w -> w <> s ->
      Choice.rank self = (Return None, staged self s params)).
Proof.
  intros Hc Hne Hg Hi.
  rewrite (Choice_rank_qr_branch self choices Hc Hne (get_layer_has _ _ _ Hg)).
  rewrite (rank_qr_known self choices s params Hg Hi).
  split.
  - intros Hw. now rewrite (when_is_same _ _ Hw).
  - intros w Hw Hne'. now rewrite Hw, (when_is_other _ _ Hne').
Qed.

(** C6. With the pending choices absent from the transition register, or
    empty, [Choice.rank] has no opinion; in particular it does not return
    the score 0.0. *)
Theorem Choice_rank_without_choices (self : Choice.Self) :
  get_trans_reg (Choice.request self) "choices" = None
  \/ get_trans_reg (Choice.request self) "choices" = Some [] ->
  Choice.rank self = (Return None, self)
  /\ fst (Choice.rank self) <> Return (Some 0%Q).
Proof.
  intros Hc.
  assert (Hr : Choice.rank self = (Return None, self)).
  { apply Choice_rank_no_choices. now destruct Hc as [-> | ->]. }
  split; [exact Hr|]. rewrite Hr. simpl. congruence.
Qed.

(** C7. A request with neither a quick-reply nor a raw-text token gets no
    opinion from the Text trigger and none from the Choice trigger. *)
Theorem rank_without_tokens (request : Request)
    (text : Text.Self) (choice : Choice.Self) :
  Text.request text = request ->
  Choice.request choice = request ->
  has_layer request layers.cQuickReply = false ->
  has_layer request layers.cRawText = false ->
  Text.rank text = (Return None, text)
  /\ Choice.rank choice = (Return None, choice).
Proof.
  intros Htext Hchoice Hq Ht. split.
  - apply Text_rank_no_raw_text. now rewrite Htext.
  - apply Choice_rank_no_token; now rewrite Hchoice.
Qed.

(** C8. When the request has a quick-reply token whose slug is not a key
    of the (non-empty) pending choices, [Choice.rank] has no opinion and
    stages nothing, whatever raw-text token the request also has: the
    raw text is not matched against the choices. *)
Theorem Choice_rank_unknown_quick_reply (self : Choice.Self)
    (choices : Choices) (s : string) :
  get_trans_reg (Choice.request self) "choices" = Some choices ->
  choices <> [] ->
  layers.get_layer (stack (Choice.request self)) layers.cQuickReply
    = Some (layers.QuickReply s) ->
  getitem choices s = None ->
  Choice.rank self = (Return None, self).
Proof.
  intros Hc Hne Hg Hi.
  rewrite (Choice_rank_qr_branch self choices Hc Hne (get_layer_has _ _ _ Hg)).
  now apply rank_qr_unknown with (s := s).
Qed.

End ChoiceTrigger.

(** ** The Choice trigger: the raw-text branch *)

Section ChoiceRawText.

Context `{Collaborators}.
Variable request : Request.
Variable t : string.

Lemma Qgtb_true (a b : Q) : Qgtb a b = true -> (b < a)%Q.
Proof.
  unfold Qgtb. intros Hg. apply Qnot_le_lt. intros Hle.
  apply Qle_bool_iff in Hle. rewrite Hle in Hg. discriminate.
Qed.

Lemma Qgtb_false (a b : Q) : Qgtb a b = false -> (a <= b)%Q.
Proof.
  unfold Qgtb. intros Hg. apply Qle_bool_iff.
  now destruct (Qle_bool a b).
Qed.

Lemma candidates_complete (params : Params) (self : Choice.Self) :
  complete params ->
  Choice.candidates request params self
    = (Return (candidate_strings request params), self).
Proof.
  intros [[i Hi] [x Hx]]. unfold Choice.candidates, candidate_strings. run.
  rewrite Hi, Hx. simpl.
  destruct i as [[|a i]|], x as [[|b x]|]; simpl;
    rewrite ?app_nil_r; reflexivity.
Qed.

Lemma candidates_incomplete (params : Params) (self : Choice.Self) :
  incomplete params ->
  Choice.candidates request params self = (Raise KeyError, self).
Proof.
  intros [Hi | Hx]; unfold Choice.candidates; run.
  - now rewrite Hi.
  - rewrite Hx. now destruct (params !! "intent").
Qed.

Lemma loop_step (slug : string) (params : Params) (rest : Choices)
    (best : Q) (self : Choice.Self) :
  complete params ->
  Choice._rank_text_loop request t ((slug, params) :: rest) best self =
    if Qgtb (score request t params) best
    then Choice._rank_text_loop request t rest (score request t params)
           (staged self slug params)
    else Choice._rank_text_loop request t rest best self.
Proof.
  intros Hc. simpl. unfold bind at 1.
  rewrite (candidates_complete params self Hc). fold (score request t params).
  destruct (Qgtb _ _); reflexivity.
Qed.

(** What the loop leaves behind: the best score seen, no less than the
    one it started from, and staged on the trigger the first choice that
    reached it when some choice improved on the start. *)
Lemma loop_spec (items : Choices) :
  Forall (fun c => complete c.2) items ->
  forall (best : Q) (self : Choice.Self),
  exists best' self',
    Choice._rank_text_loop request t items best self = (Return best', self')
    /\ (best <= best')%Q
    /\ Forall (fun c => (score request t c.2 <= best')%Q) items
    /\ ((best' = best /\ self' = self)
        \/ exists pre s params post,
             items = pre ++ (s, params) :: post
             /\ best' = score request t params
             /\ (best < best')%Q
             /\ Forall (fun c => (score request t c.2 < best')%Q) pre
             /\ self' = staged self s params).
Proof.
  induction 1 as [|[s params] rest Hc _ IH]; intros best self.
  - exists best, self. repeat split; auto using Qle_refl.
  - simpl in Hc. rewrite (loop_step s params rest best self Hc).
    destruct (Qgtb (score request t params) best) eqn:Hg.
    + apply Qgtb_true in Hg.
      destruct (IH (score request t params) (staged self s params))
        as (best' & self' & Hrun & Hle & Hall & Hkept).
      exists best', self'. split; [exact Hrun|].
      split; [eapply Qle_trans; [apply Qlt_le_weak, Hg | exact Hle]|].
      split; [constructor; [exact Hle | exact Hall]|].
      right. destruct Hkept as [[-> ->] | (pre & s' & p' & post & -> & -> & Hlt & Hpre & ->)].
      * exists [], s, params, rest. repeat split; auto.
      * exists ((s, params) :: pre), s', p', post. repeat split; auto.
        eapply Qlt_trans; [exact Hg | exact Hlt].
    + apply Qgtb_false in Hg.
      destruct (IH best self) as (best' & self' & Hrun & Hle & Hall & Hkept).
      exists best', self'. split; [exact Hrun|].
      split; [exact Hle|].
      split; [constructor; [simpl; eapply Qle_trans; eauto | exact Hall]|].
      destruct Hkept as [[-> ->] | (pre & s' & p' & post & -> & -> & Hlt & Hpre & ->)].
      * now left.
      * right. exists ((s, params) :: pre), s', p', post. repeat split; auto.
        constructor; [simpl; eapply Qle_lt_trans; eauto | exact Hpre].
Qed.

Lemma loop_raises (items : Choices) :
  Exists (fun c => incomplete c.2) items ->
  forall (best : Q) (self : Choice.Self),
  exists self',
    Choice._rank_text_loop request t items best self = (Raise KeyError, self').
Proof.
  induction items as [|[s params] rest IH]; intros Hex best self.
  - inversion Hex.
  - destruct (params !! "intent") as [i|] eqn:Hi;
      [destruct (params !! "text") as [x|] eqn:Hx|].
    + assert (Hc : complete params) by (split; eauto).
      rewrite (loop_step s params rest best self Hc).
      assert (Hrest : Exists (fun c => incomplete c.2) rest).
      { inversion Hex as [? ? [Hn | Hn]|]; subst; simpl in *; congruence || assumption. }
      destruct (Qgtb _ _); now apply IH.
    + exists self. simpl. unfold bind at 1.
      rewrite candidates_incomplete; [reflexivity | now right].
    + exists self. simpl. unfold bind at 1.
      rewrite candidates_incomplete; [reflexivity | now left].
Qed.

End ChoiceRawText.

Section ChoiceRawTextRank.

Context `{Collaborators}.

Lemma rank_text_run (self : Choice.Self) (choices : Choices) (t : string) :
  layers.get_layer (stack (Choice.request self)) layers.cRawText
    = Some (layers.RawText t) ->
  Choice._rank_text choices self =
    match Choice._rank_text_loop (Choice.request self) t choices 0%Q self with
    | (Return best, self') =>
        (Return (if Choice.when_is (Choice.when self') (Choice.slug self')
                 then Some best else None), self')
    | (Raise e, self') => (Raise e, self')
    end.
Proof.
  intros Hg. unfold Choice._rank_text. run. rewrite Hg. simpl.
  destruct (Choice._rank_text_loop _ _ _ _ _) as [[best|e] self']; [|reflexivity].
  now destruct (Choice.when_is _ _).
Qed.

(** C2, as the code has it. For a request without quick-reply token and
    with a raw-text token of text [t], and non-empty pending choices whose
    records all carry both keys, [Choice.rank] on a fresh trigger scores
    every choice by the best match of the rendered [t] against its
    candidate strings. Either no choice scores above 0.0: then nothing is
    staged, and the result is 0.0 if [when] is unset and no opinion if
    it is set. Or the highest score is above 0.0: then the first choice
    that reaches it is staged, and the result is that score if [when] is
    unset or equal to the staged slug and no opinion otherwise. *)
Theorem Choice_rank_raw_text (request : Request) (when : option string)
    (choices : Choices) (t : string) :
  get_trans_reg request "choices" = Some choices ->
  choices <> [] ->
  has_layer request layers.cQuickReply = false ->
  layers.get_layer (stack request) layers.cRawText
    = Some (layers.RawText t) ->
  Forall (fun c => complete c.2) choices ->
  let self := Choice.init request when in
  (Forall (fun c => (score request t c.2 <= 0)%Q) choices
   /\ Choice.rank self =
        (Return (match when with None => Some 0%Q | Some _ => None end),
         self))
  \/ exists pre s params post,
       choices = pre ++ (s, params) :: post
       /\ (0 < score request t params)%Q
       /\ Forall (fun c => (score request t c.2 < score request t params)%Q) pre
       /\ Forall (fun c => (score request t c.2 <= score request t params)%Q) choices
       /\ Choice.rank self =
            (Return (if Choice.when_is when (Some s)
                     then Some (score request t params) else None),
             staged self s params).
Proof.
  intros Hc Hne Hq Hg Hall self.
  assert (Hrank : Choice.rank self = Choice._rank_text choices self).
  { apply Choice_rank_text_branch; auto.
    exact (get_layer_has _ _ _ Hg). }
  rewrite Hrank, (rank_text_run self choices t Hg).
  change (Choice.request self) with request.
  destruct (loop_spec request t choices Hall 0%Q self)
    as (best' & self' & Hrun & Hle & Hbound & Hkept).
  rewrite Hrun.
  destruct Hkept as [[-> ->] | (pre & s & params & post & -> & -> & Hlt & Hpre & ->)].
  - left. split; [exact Hbound|]. simpl. now destruct when.
  - right. exists pre, s, params, post. repeat split; auto.
Qed.

(** C9. On the raw-text branch (pending choices, no quick-reply token, a
    raw-text token) [Choice.rank] returns when every choice record
    carries both the ['intent'] and the ['text'] key, and raises a
    [KeyError], which nothing catches, as soon as one record misses
    either key. *)
Theorem Choice_rank_raw_text_total (self : Choice.Self) (choices : Choices) :
  get_trans_reg (Choice.request self) "choices" = Some choices ->
  choices <> [] ->
  has_layer (Choice.request self) layers.cQuickReply = false ->
  has_layer (Choice.request self) layers.cRawText = true ->
  (Forall (fun c => complete c.2) choices ->
   exists r self', Choice.rank self = (Return r, self'))
  /\ (Exists (fun c => incomplete c.2) choices ->
      exists self', Choice.rank self = (Raise KeyError, self')).
Proof.
  intros Hc Hne Hq Ht.
  rewrite (Choice_rank_text_branch self choices Hc Hne Hq Ht).
  destruct (has_layer_get _ _ Ht) as [x Hx].
  destruct (raw_text_layer _ _ Hx) as [t ->].
  rewrite (rank_text_run self choices t Hx). split.
  - intros Hall.
    destruct (loop_spec (Choice.request self) t choices Hall 0%Q self)
      as (best' & self' & Hrun & _). rewrite Hrun. eauto.
  - intros Hex.
    destruct (loop_raises (Choice.request self) t choices Hex 0%Q self)
      as (self' & Hrun). rewrite Hrun. eauto.
Qed.

End ChoiceRawTextRank.

(** ** The Facebook platform: accepting and sending a stack *)

Section FacebookPlatform.

Context `{StackMatcher}.

Lemma accept_loop_none (items : list (string * string)) (stack : layers.Stack) :
  none_matches stack items ->
  Facebook.accept_loop items stack = (Return false, stack).
Proof.
  induction 1 as [|[name pattern] rest Hno _ IH]; [reflexivity|].
  simpl in *. run. now rewrite Hno.
Qed.

Lemma accept_loop_first (items : list (string * string))
    (stack : layers.Stack) (name : string) :
  first_match stack items name ->
  Facebook.accept_loop items stack
    = (Return true, layers.set_annotation name stack).
Proof.
  intros (pre & pattern & post & -> & Hpre & Hm).
  induction Hpre as [|[n p] pre Hno _ IH]; simpl in *; run.
  - now rewrite Hm.
  - rewrite Hno. exact IH.
Qed.

(** The two outcomes of the loop are the only ones. *)
Lemma accept_loop_cases (items : list (string * string)) (stack : layers.Stack) :
  none_matches stack items
  \/ exists name, first_match stack items name.
Proof.
  induction items as [|[n p] rest IH]; [left; constructor|].
  destruct (match_exp stack p) eqn:Hm.
  - right. exists n, [], p, rest. repeat split; [constructor | exact Hm].
  - destruct IH as [Hno | (name & pre & pattern & post & -> & Hpre & Hp)].
    + left. now constructor.
    + right. exists name, ((n, p) :: pre), pattern, post.
      repeat split; [now constructor | exact Hp].
Qed.

(** C4. [accept] tries the registered patterns in their order. When some
    pattern matches, [accept] returns True and the stack it leaves has the
    name of the first pattern that matches as its annotation, with the
    layers it had; when none matches, [accept] returns False and the stack
    stays as it was. One of the two is always the case. *)
Theorem Facebook_accept_spec (self : PlatformClass) (stack : layers.Stack) :
  (forall name, first_match stack (PATTERNS self) name ->
     exists stack',
       Facebook.accept self stack = (Return true, stack')
       /\ layers.annotation stack' = Some name
       /\ layers.layers stack' = layers.layers stack)
  /\ (none_matches stack (PATTERNS self) ->
      Facebook.accept self stack = (Return false, stack))
  /\ (none_matches stack (PATTERNS self)
      \/ exists name, first_match stack (PATTERNS self) name).
Proof.
  split; [|split].
  - intros name Hf. exists (layers.set_annotation name stack).
    split; [now apply accept_loop_first|]. split; reflexivity.
  - apply accept_loop_none.
  - apply accept_loop_cases.
Qed.

(** C10. When [accept] returns False it has not touched the stack: the
    annotation (and the layers) are what they were. *)
Theorem Facebook_accept_false_frame (self : PlatformClass) (stack : layers.Stack) :
  fst (Facebook.accept self stack) = Return false ->
  snd (Facebook.accept self stack) = stack
  /\ layers.annotation (snd (Facebook.accept self stack))
       = layers.annotation stack.
Proof.
  unfold Facebook.accept.
  destruct (accept_loop_cases (PATTERNS self) stack) as [Hno | [name Hf]].
  - rewrite (accept_loop_none _ _ Hno). auto.
  - rewrite (accept_loop_first _ _ _ Hf). simpl. discriminate.
Qed.

Lemma contains_handler (self : PlatformClass) (name : string) :
  handlers_complete self ->
  contains (PATTERNS self) name = true ->
  existsb (String.eqb ("_send_" ++ name)%string) (attributes self) = true.
Proof.
  unfold handlers_complete, contains.
  induction 1 as [|[n p] rest Hh _ IH]; simpl; [discriminate|].
  destruct (String.eqb n name) eqn:Hn; [|exact IH].
  apply String.eqb_eq in Hn as <-. intros _. exact Hh.
Qed.

Lemma first_match_handler (self : PlatformClass) (stack : layers.Stack)
    (name : string) :
  handlers_complete self ->
  first_match stack (PATTERNS self) name ->
  existsb (String.eqb ("_send_" ++ name)%string) (attributes self) = true.
Proof.
  unfold handlers_complete. intros Hh (pre & pattern & post & Hp & _).
  rewrite Hp in Hh. apply Forall_app in Hh as [_ Hh].
  now inversion Hh.
Qed.

(** C5. On a platform class that has a send routine for each of its
    patterns (as [Facebook] has): a stack whose annotation is not a
    registered pattern name and that no registered pattern matches makes
    [send] raise [UnacceptableStack], and no send routine is called; a
    stack whose annotation is a registered name goes to the routine of
    that name; and a stack without such an annotation that some
    registered pattern matches is annotated by [accept] and goes to the
    routine of that annotation. *)
Theorem Facebook_send_spec (self : PlatformClass) (request : Request)
    (stack : layers.Stack) :
  handlers_complete self ->
  (Facebook.annotation_not_in (layers.annotation stack) (PATTERNS self) = true ->
   none_matches stack (PATTERNS self) ->
   Facebook.send self request stack = (Raise UnacceptableStack, stack))
  /\ (forall name,
        layers.annotation stack = Some name ->
        contains (PATTERNS self) name = true ->
        Facebook.send self request stack
          = (Return {| func := ("_send_" ++ name)%string;
                       args := (request, stack) |},
             stack))
  /\ (forall name,
        Facebook.annotation_not_in (layers.annotation stack) (PATTERNS self) = true ->
        first_match stack (PATTERNS self) name ->
        Facebook.send self request stack
          = (Return {| func := ("_send_" ++ name)%string;
                       args := (request, layers.set_annotation name stack) |},
             layers.set_annotation name stack)).
Proof.
  intros Hh. repeat split.
  - intros Hn Hno. unfold Facebook.send, Facebook.accept. run.
    rewrite Hn, (accept_loop_none _ _ Hno). reflexivity.
  - intros name Ha Hc. unfold Facebook.send, Facebook.getattr. run.
    rewrite Ha. unfold Facebook.annotation_not_in. rewrite Hc.
    cbn -[String.append]. rewrite Ha.
    now rewrite (contains_handler self name Hh Hc).
  - intros name Hn Hf. unfold Facebook.send, Facebook.accept, Facebook.getattr.
    run. rewrite Hn, (accept_loop_first _ _ _ Hf). cbn -[String.append].
    now rewrite (first_match_handler self stack name Hh Hf).
Qed.

End FacebookPlatform.

(** ** The properties on the sample data *)

Ltac run_sample := vm_compute; reflexivity.

Lemma Text_rank_spec_witness :
  Text.rank (Text.init req_postback (intents_getattr "YES"))
    = (Return None, Text.init req_postback (intents_getattr "YES"))
  /\ exists t,
       layers.get_layer (stack req_yess) layers.cRawText
         = Some (layers.RawText t)
       /\ Text.rank (Text.init req_yess (intents_getattr "YES"))
          = (Return (Some (best_match t (strings (intents_getattr "YES") req_yess))),
             Text.init req_yess (intents_getattr "YES")).
Proof.
  split.
  - apply (proj1 (Text_rank_spec (Text.init req_postback (intents_getattr "YES")))).
    run_sample.
  - apply (proj2 (Text_rank_spec (Text.init req_yess (intents_getattr "YES")))).
    run_sample.
Defined.

Lemma Choice_rank_quick_reply_witness :
  has_layer req_qr layers.cRawText = true
  /\ Choice.rank (Choice.init req_qr None)
      = (Return (Some 1%Q), staged (Choice.init req_qr None) "no" no_params)
  /\ Choice.rank (Choice.init req_qr (Some "no"))
      = (Return (Some 1%Q), staged (Choice.init req_qr (Some "no")) "no" no_params)
  /\ Choice.rank (Choice.init req_qr (Some "yes"))
      = (Return None, staged (Choice.init req_qr (Some "yes")) "no" no_params).
Proof.
  split; [run_sample|]. split; [|split].
  - apply (Choice_rank_quick_reply (Choice.init req_qr None) yes_no "no" no_params);
      [run_sample | discriminate | run_sample | run_sample | left; reflexivity].
  - apply (Choice_rank_quick_reply (Choice.init req_qr (Some "no")) yes_no "no" no_params);
      [run_sample | discriminate | run_sample | run_sample | right; reflexivity].
  - apply (proj2 (Choice_rank_quick_reply (Choice.init req_qr (Some "yes")) yes_no "no" no_params
                    ltac:(run_sample) ltac:(discriminate) ltac:(run_sample) ltac:(run_sample))
             "yes"); [reflexivity | discriminate].
Defined.

Lemma Choice_rank_without_choices_witness :
  (Choice.rank (Choice.init req_no_register None)
     = (Return None, Choice.init req_no_register None)
   /\ fst (Choice.rank (Choice.init req_no_register None)) <> Return (Some 0%Q))
  /\ (Choice.rank (Choice.init req_empty_choices None)
       = (Return None, Choice.init req_empty_choices None)
      /\ fst (Choice.rank (Choice.init req_empty_choices None)) <> Return (Some 0%Q)).
Proof.
  split.
  - apply (Choice_rank_without_choices (Choice.init req_no_register None)).
    left. run_sample.
  - apply (Choice_rank_without_choices (Choice.init req_empty_choices None)).
    right. run_sample.
Defined.

Lemma rank_without_tokens_witness :
  Text.rank (Text.init req_postback (intents_getattr "YES"))
    = (Return None, Text.init req_postback (intents_getattr "YES"))
  /\ Choice.rank (Choice.init req_postback None)
     = (Return None, Choice.init req_postback None).
Proof.
  apply (rank_without_tokens req_postback); [reflexivity | reflexivity | run_sample | run_sample].
Defined.

Lemma Choice_rank_unknown_quick_reply_witness :
  has_layer req_unknown_qr layers.cRawText = true
  /\ Choice.rank (Choice.init req_unknown_qr None)
     = (Return None, Choice.init req_unknown_qr None).
Proof.
  split; [run_sample|].
  apply (Choice_rank_unknown_quick_reply (Choice.init req_unknown_qr None) yes_no "maybe");
    [run_sample | discriminate | run_sample | run_sample].
Defined.

Lemma complete_intro (params : Params) (i x : option string) :
  params !! "intent" = Some i -> params !! "text" = Some x -> complete params.
Proof. intros Hi Hx. split; eauto. Qed.

Lemma yes_no_complete : Forall (fun c => complete c.2) yes_no.
Proof.
  constructor; [|constructor; [|constructor]].
  - apply (complete_intro _ (Some "YES") (Some "Yes")); run_sample.
  - apply (complete_intro _ None (Some "No")); run_sample.
Qed.

Lemma only_yes_complete : Forall (fun c => complete c.2) only_yes.
Proof.
  constructor; [|constructor].
  apply (complete_intro _ None (Some "Yes")); run_sample.
Qed.

Lemma text_only_incomplete : Exists (fun c => incomplete c.2) text_only.
Proof. constructor. left. run_sample. Qed.

(** The raw text "yess" against the choices "yes" and "no": "yes" is
    staged, with a score above the one of "no". *)
Example yess_selects_yes :
  Choice.rank (Choice.init req_yess None)
    = (Return (Some (2 # 3)%Q), staged (Choice.init req_yess None) "yes" yes_params)
  /\ (score req_yess "yess" no_params < score req_yess "yess" yes_params)%Q.
Proof. split; [run_sample | reflexivity]. Qed.

Lemma Choice_rank_raw_text_witness :
  let self := Choice.init req_yess None in
  (Forall (fun c => (score req_yess "yess" c.2 <= 0)%Q) yes_no
   /\ Choice.rank self = (Return (Some 0%Q), self))
  \/ exists pre s params post,
       yes_no = pre ++ (s, params) :: post
       /\ (0 < score req_yess "yess" params)%Q
       /\ Forall (fun c => (score req_yess "yess" c.2 < score req_yess "yess" params)%Q) pre
       /\ Forall (fun c => (score req_yess "yess" c.2 <= score req_yess "yess" params)%Q) yes_no
       /\ Choice.rank self =
            (Return (if Choice.when_is None (Some s)
                     then Some (score req_yess "yess" params) else None),
             staged self s params).
Proof.
  apply (Choice_rank_raw_text req_yess None yes_no "yess");
    [run_sample | discriminate | run_sample | run_sample | exact yes_no_complete].
Defined.

(** C2 as worded fails where no choice scores above 0.0. The request
    carries the raw text "zzz", the only pending choice is "yes" with the
    literal text "Yes", and [when] is "yes": the choice "yes" has the
    highest score, 0.0, yet [Choice.rank] stages nothing and has no
    opinion, where the wording has it keep "yes" and return 0.0. *)
Lemma Choice_rank_raw_text_zero_score :
  get_trans_reg req_zzz "choices" = Some only_yes
  /\ has_layer req_zzz layers.cQuickReply = false
  /\ layers.get_layer (stack req_zzz) layers.cRawText = Some (layers.RawText "zzz")
  /\ Forall (fun c => complete c.2) only_yes
  /\ Choice.rank (Choice.init req_zzz (Some "yes"))
     = (Return None, Choice.init req_zzz (Some "yes"))
  /\ ~ keeps_highest_choice req_zzz (Some "yes") only_yes "zzz".
Proof.
  split; [run_sample|]. split; [run_sample|]. split; [run_sample|].
  split; [exact only_yes_complete|].
  assert (Hrun : Choice.rank (Choice.init req_zzz (Some "yes"))
                 = (Return None, Choice.init req_zzz (Some "yes")))
    by run_sample.
  split; [exact Hrun|].
  intros (s & params & Hin & _ & Hr).
  rewrite Hrun in Hr. destruct Hin as [Heq | []].
  inversion Heq; subst s. simpl in Hr. discriminate Hr.
Qed.

Lemma Choice_rank_raw_text_total_witness :
  (exists r self', Choice.rank (Choice.init req_yess None) = (Return r, self'))
  /\ (exists self',
        Choice.rank (Choice.init req_text_only None) = (Raise KeyError, self')).
Proof.
  split.
  - apply (proj1 (Choice_rank_raw_text_total (Choice.init req_yess None) yes_no
                    ltac:(run_sample) ltac:(discriminate)
                    ltac:(run_sample) ltac:(run_sample))).
    exact yes_no_complete.
  - apply (proj2 (Choice_rank_raw_text_total (Choice.init req_text_only None) text_only
                    ltac:(run_sample) ltac:(discriminate)
                    ltac:(run_sample) ltac:(run_sample))).
    exact text_only_incomplete.
Defined.

Lemma Facebook_handlers_complete : handlers_complete Facebook.cls.
Proof. constructor; [run_sample | constructor]. Qed.

Lemma text_stack_first_match :
  first_match text_stack (PATTERNS Facebook.cls) "text".
Proof.
  exists [], "(Text|RawText)+ QuickRepliesList?", [].
  split; [reflexivity|]. split; [constructor | run_sample].
Qed.

Lemma postback_stack_none_matches :
  none_matches postback_stack (PATTERNS Facebook.cls).
Proof. constructor; [run_sample | constructor]. Qed.

(** Both patterns of [two_patterns] match a lone raw text; the one written
    first gives its name, which is the annotation of the stack afterwards. *)
Lemma Facebook_accept_spec_witness :
  match_exp (layers.Stack_init [layers.RawText "a"]) "(Text|RawText)+" = true
  /\ (exists stack',
        Facebook.accept two_patterns (layers.Stack_init [layers.RawText "a"])
          = (Return true, stack')
        /\ layers.annotation stack' = Some "text"
        /\ layers.layers stack'
           = layers.layers (layers.Stack_init [layers.RawText "a"]))
  /\ Facebook.accept Facebook.cls postback_stack = (Return false, postback_stack).
Proof.
  split; [run_sample|]. split.
  - apply (proj1 (Facebook_accept_spec two_patterns
                    (layers.Stack_init [layers.RawText "a"])) "text").
    exists [], "(Text|RawText)+ QuickRepliesList?", [("plain", "(Text|RawText)+")].
    split; [reflexivity|]. split; [constructor | run_sample].
  - apply (proj1 (proj2 (Facebook_accept_spec Facebook.cls postback_stack))).
    exact postback_stack_none_matches.
Defined.

Lemma Facebook_accept_false_frame_witness :
  fst (Facebook.accept Facebook.cls postback_stack) = Return false
  /\ snd (Facebook.accept Facebook.cls postback_stack) = postback_stack
  /\ layers.annotation (snd (Facebook.accept Facebook.cls postback_stack))
     = layers.annotation postback_stack.
Proof.
  split; [run_sample|].
  apply (Facebook_accept_false_frame Facebook.cls postback_stack). run_sample.
Defined.

(** The three cases of [send] on the Facebook class: a postback stack is
    refused; a stack already annotated "text" is sent as text without
    being matched again; a text stack is annotated and sent as text. *)
Lemma Facebook_send_spec_witness :
  let request := request_of [] None in
  let annotated := layers.set_annotation "text" postback_stack in
  Facebook.send Facebook.cls request postback_stack
    = (Raise UnacceptableStack, postback_stack)
  /\ Facebook.send Facebook.cls request annotated
     = (Return {| func := "_send_text"; args := (request, annotated) |},
        annotated)
  /\ Facebook.send Facebook.cls request text_stack
     = (Return {| func := "_send_text";
                  args := (request, layers.set_annotation "text" text_stack) |},
        layers.set_annotation "text" text_stack).
Proof.
  intros request annotated.
  split; [|split].
  - apply (proj1 (Facebook_send_spec Facebook.cls request postback_stack
                    Facebook_handlers_complete));
      [run_sample | exact postback_stack_none_matches].
  - apply (proj1 (proj2 (Facebook_send_spec Facebook.cls request annotated
                           Facebook_handlers_complete)) "text");
      run_sample.
  - apply (proj2 (proj2 (Facebook_send_spec Facebook.cls request text_stack
                           Facebook_handlers_complete)) "text");
      [run_sample | exact text_stack_first_match].
Defined.

(** * Further properties *)

(** ** The triggers: scale, staging, ranking again *)

Section TriggerScale.

Context `{Collaborators}.

Lemma candidates_pure (request : Request) (params : Params) (self : Choice.Self) :
  Choice.candidates request params self =
    (match params !! "intent", params !! "text" with
     | Some _, Some _ => Return (candidate_strings request params)
     | _, _ => Raise KeyError
     end, self).
Proof.
  destruct (params !! "intent") as [i|] eqn:Hi;
    [destruct (params !! "text") as [x|] eqn:Hx|].
  - apply candidates_complete. split; eauto.
  - apply candidates_incomplete. now right.
  - apply candidates_incomplete. now left.
Qed.

(** The loop, run on a trigger, is [kept_by_loop] with the kept choice
    staged. *)
Lemma loop_trace (request : Request) (t : string) (items : Choices) :
  forall (best : Q) (self : Choice.Self) (kept : option (string * Params)),
    Choice._rank_text_loop request t items best (restage self kept) =
      (fst (kept_by_loop request t items best kept),
       restage self (snd (kept_by_loop request t items best kept))).
Proof.
  induction items as [|[s params] rest IH]; intros best self kept;
    [reflexivity|].
  cbn [Choice._rank_text_loop kept_by_loop]. unfold bind at 1.
  rewrite candidates_pure.
  destruct (params !! "intent") as [i|]; [|reflexivity].
  destruct (params !! "text") as [x|]; [|reflexivity].
  fold (score request t params).
  destruct (Qgtb (score request t params) best).
  - destruct kept as [[s0 p0]|];
    change (Choice._rank_text_loop request t rest (score request t params)
              (restage self (Some (s, params))) =
            (fst (kept_by_loop request t rest (score request t params)
                               (Some (s, params))),
             restage self (snd (kept_by_loop request t rest
                                  (score request t params) (Some (s, params))))));
    apply IH.
  - apply IH.
Qed.

(** What the loop returns: no less than it started from; and either the
    start itself, with no new choice kept, or the score of a choice of the
    mapping, above the start, with that choice kept. *)
Lemma kept_by_loop_returns (request : Request) (t : string) (items : Choices) :
  forall (best r : Q) (kept k : option (string * Params)),
    kept_by_loop request t items best kept = (Return r, k) ->
    (best <= r)%Q
    /\ ((r = best /\ k = kept)
        \/ exists s params,
             k = Some (s, params) /\ In (s, params) items
             /\ r = score request t params /\ (best < r)%Q).
Proof.
  induction items as [|[s params] rest IH]; intros best r kept k Hk.
  - inversion Hk; subst. split; [apply Qle_refl | now left].
  - cbn [kept_by_loop] in Hk.
    destruct (params !! "intent") as [i|]; [|discriminate].
    destruct (params !! "text") as [x|]; [|discriminate].
    destruct (Qgtb (score request t params) best) eqn:Hg.
    + apply Qgtb_true in Hg.
      destruct (IH _ _ _ _ Hk) as [Hle [[-> ->] | (s' & p' & -> & Hin & -> & Hlt)]].
      * split; [now apply Qlt_le_weak|]. right. exists s, params.
        repeat split; auto. now left.
      * split; [eapply Qle_trans; [apply Qlt_le_weak; exact Hg | exact Hle]|].
        right. exists s', p'. repeat split; auto; [now right|].
        eapply Qlt_trans; eauto.
    + destruct (IH _ _ _ _ Hk) as [Hle [[-> ->] | (s' & p' & -> & Hin & -> & Hlt)]].
      * split; [exact Hle | now left].
      * split; [exact Hle|]. right. exists s', p'. repeat split; auto.
        now right.
Qed.

(** [_rank_text] in terms of [kept_by_loop]. *)
Lemma rank_text_view (self : Choice.Self) (choices : Choices) (t : string) :
  layers.get_layer (stack (Choice.request self)) layers.cRawText
    = Some (layers.RawText t) ->
  Choice._rank_text choices self =
    let run := kept_by_loop (Choice.request self) t choices 0%Q None in
    let self' := restage self (snd run) in
    (match fst run with
     | Return best =>
         Return (if Choice.when_is (Choice.when self) (Choice.slug self')
                 then Some best else None)
     | Raise e => Raise e
     end, self').
Proof.
  intros Hg. rewrite (rank_text_run self choices t Hg).
  change self with (restage self None) at 2.
  rewrite (loop_trace (Choice.request self) t choices 0%Q self None).
  cbv zeta.
  destruct (kept_by_loop _ _ _ _ _) as [[best|e] [[s p]|]]; reflexivity.
Qed.

Lemma getitem_In {V} (d : list (string * V)) (k : string) (v : V) :
  getitem d k = Some v -> In (k, v) d.
Proof.
  induction d as [|[k' v'] d IH]; simpl; [discriminate|].
  destruct (String.eqb k' k) eqn:Hk.
  - apply String.eqb_eq in Hk as ->. intros [= ->]. now left.
  - intros Hg. right. now apply IH.
Qed.

(** The three ways [Choice.rank] can go. *)
Lemma Choice_rank_view (self : Choice.Self) :
  Choice.rank self = (Return None, self)
  \/ (exists choices s params,
        get_trans_reg (Choice.request self) "choices" = Some choices
        /\ choices <> []
        /\ layers.get_layer (stack (Choice.request self)) layers.cQuickReply
             = Some (layers.QuickReply s)
        /\ getitem choices s = Some params
        /\ Choice.rank self =
             (Return (if Choice.when_is (Choice.when self) (Some s)
                      then Some 1%Q else None),
              staged self s params))
  \/ (exists choices t,
        get_trans_reg (Choice.request self) "choices" = Some choices
        /\ choices <> []
        /\ has_layer (Choice.request self) layers.cQuickReply = false
        /\ layers.get_layer (stack (Choice.request self)) layers.cRawText
             = Some (layers.RawText t)
        /\ Choice.rank self = Choice._rank_text choices self).
Proof.
  destruct (get_trans_reg (Choice.request self) "choices") as [choices|] eqn:Hc.
  2:{ left. apply Choice_rank_no_choices. now rewrite Hc. }
  destruct choices as [|c choices].
  { left. apply Choice_rank_no_choices. now rewrite Hc. }
  assert (Hne : c :: choices <> []) by discriminate.
  destruct (has_layer (Choice.request self) layers.cQuickReply) eqn:Hq.
  - destruct (has_layer_get _ _ Hq) as [x Hx].
    destruct (quick_reply_layer _ _ Hx) as [s ->].
    rewrite (Choice_rank_qr_branch self _ Hc Hne Hq).
    destruct (getitem (c :: choices) s) as [params|] eqn:Hi.
    + right. left. exists (c :: choices), s, params.
      repeat (split; [reflexivity || assumption|]).
      now apply rank_qr_known.
    + left. now apply rank_qr_unknown with (s := s).
  - destruct (has_layer (Choice.request self) layers.cRawText) eqn:Ht.
    + destruct (has_layer_get _ _ Ht) as [x Hx].
      destruct (raw_text_layer _ _ Hx) as [t ->].
      right. right. exists (c :: choices), t.
      repeat (split; [reflexivity || assumption|]).
      now apply Choice_rank_text_branch.
    + left. now apply Choice_rank_no_token.
Qed.

(** X1. Every trigger ranks on a scale from 0 to 1, as [BaseTrigger.rank]
    documents, as soon as the matcher does: a score that [Anything],
    [Text] or [Choice] returns lies between 0.0 and 1.0. *)
Theorem triggers_rank_on_scale (anything : Anything.Self) (text : Text.Self)
    (choice : Choice.Self) (r : Q) :
  (forall q cs, (0 <= best_match q cs)%Q /\ (best_match q cs <= 1)%Q) ->
  fst (Anything.rank anything) = Return (Some r)
  \/ fst (Text.rank text) = Return (Some r)
  \/ fst (Choice.rank choice) = Return (Some r) ->
  (0 <= r)%Q /\ (r <= 1)%Q.
Proof.
  intros Hb [Hr | [Hr | Hr]].
  - simpl in Hr. inversion Hr; subst. split; discriminate.
  - destruct (has_layer (Text.request text) layers.cRawText) eqn:Ht.
    + destruct (has_layer_get _ _ Ht) as [x Hx].
      destruct (raw_text_layer _ _ Hx) as [t ->].
      rewrite (Text_rank_raw_text text t Hx) in Hr. simpl in Hr.
      inversion Hr; subst. apply Hb.
    + rewrite (Text_rank_no_raw_text text Ht) in Hr. discriminate.
  - destruct (Choice_rank_view choice)
      as [Hv | [(choices & s & p & _ & _ & _ & _ & Hv)
               | (choices & t & _ & _ & _ & Hg & Hv)]];
      rewrite Hv in Hr.
    + discriminate.
    + simpl in Hr. destruct (Choice.when_is _ _); [|discriminate].
      inversion Hr; subst. split; discriminate.
    + rewrite (rank_text_view choice choices t Hg) in Hr. cbv zeta in Hr.
      simpl in Hr.
      destruct (kept_by_loop _ _ _ _ _) as [[best|e] k] eqn:Hk; [|discriminate].
      simpl in Hr. destruct (Choice.when_is _ _); [|discriminate].
      inversion Hr; subst.
      destruct (kept_by_loop_returns _ _ _ _ _ _ _ Hk)
        as [Hle [[-> _] | (s & p & _ & _ & -> & _)]].
      * split; discriminate.
      * split; [exact Hle | apply Hb].
Qed.

(** X2. A score above 0.0 from [Choice.rank] always comes with a staged
    choice: the trigger then holds the slug and the metadata of one entry
    of the pending choices, [when] (if set) is that slug, and nothing else
    of the trigger has changed. *)
Theorem Choice_rank_score_is_staged (self self' : Choice.Self)
    (choices : Choices) (r : Q) :
  get_trans_reg (Choice.request self) "choices" = Some choices ->
  Choice.rank self = (Return (Some r), self') ->
  (0 < r)%Q ->
  exists s params,
    In (s, params) choices
    /\ self' = staged self s params
    /\ (Choice.when self = None \/ Choice.when self = Some s).
Proof.
  intros Hc Hr Hpos.
  assert (Hwhen : forall s, Choice.when_is (Choice.when self) (Some s) = true ->
                            Choice.when self = None \/ Choice.when self = Some s).
  { intros s. destruct (Choice.when self) as [w|]; simpl; [|now left].
    intros Hw. apply String.eqb_eq in Hw as ->. now right. }
  destruct (Choice_rank_view self)
    as [Hv | [(choices' & s & p & Hc' & _ & _ & Hi & Hv)
             | (choices' & t & Hc' & _ & _ & Hg & Hv)]];
    rewrite Hv in Hr.
  - discriminate.
  - rewrite Hc in Hc'. inversion Hc'; subst choices'.
    destruct (Choice.when_is _ _) eqn:Hw; [|discriminate].
    inversion Hr; subst. exists s, p.
    split; [now apply getitem_In|]. split; [reflexivity | now apply Hwhen].
  - rewrite Hc in Hc'. inversion Hc'; subst choices'.
    rewrite (rank_text_view self choices t Hg) in Hr. cbv zeta in Hr.
    destruct (kept_by_loop _ _ _ _ _) as [[best|e] k] eqn:Hk;
      simpl in Hr; [|discriminate].
    destruct (Choice.when_is _ _) eqn:Hw; [|discriminate].
    inversion Hr; subst.
    destruct (kept_by_loop_returns _ _ _ _ _ _ _ Hk)
      as [_ [[-> _] | (s & p & -> & Hin & _ & _)]].
    + now apply Qlt_irrefl in Hpos.
    + exists s, p. split; [exact Hin|]. split; [reflexivity|].
      now apply Hwhen.
Qed.

(** X3. Ranking a Choice trigger again changes nothing: run on the
    trigger it has left, [Choice.rank] gives the same result and leaves the
    same trigger, whether it returned or raised. *)
Theorem Choice_rank_again (self : Choice.Self) :
  Choice.rank (snd (Choice.rank self)) = Choice.rank self.
Proof.
  destruct (Choice_rank_view self)
    as [Hv | [(choices & s & p & Hc & Hne & Hg & Hi & Hv)
             | (choices & t & Hc & Hne & Hq & Hg & Hv)]].
  - now rewrite Hv.
  - rewrite Hv. cbn [snd].
    rewrite (Choice_rank_qr_branch (staged self s p) choices Hc Hne
               (get_layer_has _ _ _ Hg)).
    now rewrite (rank_qr_known (staged self s p) choices s p Hg Hi).
  - rewrite Hv, (rank_text_view self choices t Hg). cbv zeta. cbn [snd].
    destruct (kept_by_loop (Choice.request self) t choices 0%Q None)
      as [res [[s p]|]] eqn:Hk; cbn [fst snd restage].
    + rewrite (Choice_rank_text_branch (staged self s p) choices Hc Hne Hq
                 (get_layer_has _ _ _ Hg)).
      rewrite (rank_text_view (staged self s p) choices t Hg). cbv zeta.
      change (Choice.request (staged self s p)) with (Choice.request self).
      rewrite Hk. reflexivity.
    + rewrite (Choice_rank_text_branch self choices Hc Hne Hq
                 (get_layer_has _ _ _ Hg)).
      rewrite (rank_text_view self choices t Hg). cbv zeta.
      rewrite Hk. reflexivity.
Qed.

End TriggerScale.

(** ** Facebook users, conversations and inbound messages *)

(** X4. The identifiers made from Facebook ids keep users apart and keep
    conversations apart, and no user identifier is a conversation
    identifier. *)
Theorem fbid_to_id_separates (a b : string) :
  (FacebookUser._fbid_to_id a = FacebookUser._fbid_to_id b -> a = b)
  /\ (FacebookConversation._fbid_to_id a = FacebookConversation._fbid_to_id b
      -> a = b)
  /\ FacebookUser._fbid_to_id a <> FacebookConversation._fbid_to_id b.
Proof.
  unfold FacebookUser._fbid_to_id, FacebookConversation._fbid_to_id.
  simpl. split; [|split]; intros Heq;
    [injection Heq; auto | injection Heq; auto | discriminate Heq].
Qed.

Section InboundMessage.

Variable event : Event.

(** The dictionary [msg] of [get_layers]: [event.get('message', {})]. *)
Let msg : MessageDict :=
  default {| msg_text := None; msg_quick_reply := None |} (message event).

Lemma find_app_class (c : layers.L) (l1 l2 : list layers.BaseLayer) :
  List.find (fun x => layers.L_eqb (layers.class_of x) c) (l1 ++ l2) =
    match List.find (fun x => layers.L_eqb (layers.class_of x) c) l1 with
    | Some x => Some x
    | None => List.find (fun x => layers.L_eqb (layers.class_of x) c) l2
    end.
Proof.
  induction l1 as [|x l1 IH]; simpl; [reflexivity|].
  now destruct (layers.L_eqb _ _).
Qed.

(** X5. What [get_layers] gives for an event: it raises, a [KeyError],
    exactly when the message has a ['quick_reply'] without ['payload'];
    otherwise its layers hold the text of the message as the raw-text
    token when there is a ['text'], the payload as the quick-reply token
    when there is a ['quick_reply'], and no layer of another class. *)
Theorem get_layers_tokens :
  (forall e, FacebookMessage.get_layers event = Raise e <->
             e = KeyError
             /\ exists qr, msg_quick_reply msg = Some qr
                           /\ qr !! "payload" = None)
  /\ (forall ls, FacebookMessage.get_layers event = Return ls ->
        let st := layers.Stack_init ls in
        layers.get_layer st layers.cRawText
          = option_map layers.RawText (msg_text msg)
        /\ layers.get_layer st layers.cQuickReply
           = match msg_quick_reply msg with
             | Some qr => option_map layers.QuickReply (qr !! "payload")
             | None => None
             end
        /\ forall c, c <> layers.cRawText -> c <> layers.cQuickReply ->
                     layers.has_layer st c = false).
Proof.
  unfold FacebookMessage.get_layers. fold msg.
  assert (Hother : forall ls : list layers.BaseLayer,
            Forall (fun x => layers.class_of x = layers.cRawText
                             \/ layers.class_of x = layers.cQuickReply) ls ->
            forall c, c <> layers.cRawText -> c <> layers.cQuickReply ->
                      layers.has_layer (layers.Stack_init ls) c = false).
  { intros ls Hls c Hc1 Hc2. unfold layers.has_layer. simpl.
    induction Hls as [|x ls [Hx | Hx] _ IH]; simpl; [reflexivity| |];
      rewrite Hx, IH; destruct c; simpl; congruence. }
  destruct (msg_text msg) as [t|], (msg_quick_reply msg) as [qr|]; simpl;
    try destruct (qr !! "payload") as [p|] eqn:Hp; simpl; split.
  all: try (intros e; split;
            [ first [ discriminate | intros [= <-]; eauto ]
            | intros [-> (qr' & Hq & Hn)]; congruence ]).
  all: try (intros ls; discriminate).
  all: intros ls [= <-]; (split; [reflexivity | split; [reflexivity|]]);
       apply Hother;
       repeat (constructor; [simpl; auto|]); constructor.
Qed.

End InboundMessage.

(** ** A quick reply, out and back *)

Section QuickReplyRoundTrip.

Context `{Collaborators}.

Lemma make_qr_payload (request : FacebookRequest.Self) (slug text : string) :
  FacebookSend._make_qr (layers.TextOption slug text) request !! "payload"
    = Some slug.
Proof.
  unfold FacebookSend._make_qr.
  rewrite lookup_insert_ne by discriminate.
  rewrite lookup_insert_ne by discriminate.
  apply lookup_singleton_eq.
Qed.

(** X6. The payload that [_make_qr] gives a text option is its slug, and
    it comes back as the quick-reply token: when Facebook posts an event
    whose ['quick_reply'] carries that payload, [get_layers] returns, and
    on a request made of these layers, with the slug among the pending
    choices, [Choice.rank] returns 1.0 for that choice if [when] is unset
    or equal to the slug, whatever text the event also carries. *)
Theorem quick_reply_round_trip (outbound : FacebookRequest.Self)
    (slug text : string) (event : Event) (msg : MessageDict)
    (qr : gmap string string) (self : Choice.Self) (choices : Choices)
    (params : Params) :
  message event = Some msg ->
  msg_quick_reply msg = Some qr ->
  qr !! "payload"
    = FacebookSend._make_qr (layers.TextOption slug text) outbound !! "payload" ->
  get_trans_reg (Choice.request self) "choices" = Some choices ->
  getitem choices slug = Some params ->
  Choice.when self = None \/ Choice.when self = Some slug ->
  exists ls,
    FacebookMessage.get_layers event = Return ls
    /\ (layers.layers (stack (Choice.request self)) = ls ->
        Choice.rank self = (Return (Some 1%Q), staged self slug params)).
Proof.
  intros Hm Hq Hp Hc Hi Hw. rewrite make_qr_payload in Hp.
  unfold FacebookMessage.get_layers. rewrite Hm. simpl. rewrite Hq, Hp. simpl.
  eexists. split; [reflexivity|]. intros Hls.
  assert (Hg : layers.get_layer (stack (Choice.request self)) layers.cQuickReply
               = Some (layers.QuickReply slug)).
  { unfold layers.get_layer. rewrite Hls. now destruct (msg_text msg). }
  assert (Hne : choices <> []) by (intros ->; discriminate).
  rewrite (Choice_rank_qr_branch self choices Hc Hne (get_layer_has _ _ _ Hg)).
  rewrite (rank_qr_known self choices slug params Hg Hi).
  now rewrite (when_is_same _ _ Hw).
Qed.

End QuickReplyRoundTrip.

(** ** Sending text to Facebook *)

Lemma last_removelast {A} (l : list A) (x : A) :
  last l = Some x -> l = removelast l ++ [x].
Proof.
  induction l as [|a [|b l] IH]; simpl; [discriminate | now intros [= ->] |].
  intros Hl. f_equal. now apply IH.
Qed.

Lemma exists_last_or_nil {A} (l : list A) :
  l = [] \/ exists l' x, l = l' ++ [x].
Proof.
  induction l as [|a l IH] using rev_ind; [now left|]. right. eauto.
Qed.

Lemma last_None_nil {A} (l : list A) : last l = None -> l = [].
Proof.
  induction l as [|a [|b l] IH]; simpl; [reflexivity | discriminate |].
  intros Hl. specialize (IH Hl). discriminate.
Qed.

Section AccessToken.

Context `{Outside}.

Lemma access_token_loop_found (pages : list (gmap string string))
    (page_id token : string) :
  FacebookSend._access_token_loop pages page_id = Ok token <->
  exists pre page post,
    pages = pre ++ page :: post
    /\ Forall (other_page page_id) pre
    /\ page !! "page_id" = Some page_id
    /\ page !! "page_token" = Some token.
Proof.
  induction pages as [|page pages IH]; simpl.
  - split; [discriminate | intros ([|? ?] & ? & ? & Hp & _); discriminate].
  - destruct (page !! "page_id") as [id|] eqn:Hid.
    + destruct (String.eqb id page_id) eqn:He.
      * apply String.eqb_eq in He as ->.
        destruct (page !! "page_token") as [tok|] eqn:Ht.
        -- split.
           ++ intros [= ->]. exists [], page, pages. repeat split; auto.
           ++ intros ([|q pre] & page' & post & Hp & Hpre & Hi & Htok).
              ** inversion Hp; subst. congruence.
              ** inversion Hp; subst. inversion Hpre as [|? ? (id' & Hid' & Hne) _]; subst.
                 congruence.
        -- split; [discriminate|].
           intros ([|q pre] & page' & post & Hp & Hpre & Hi & Htok).
           ++ inversion Hp; subst. congruence.
           ++ inversion Hp; subst. inversion Hpre as [|? ? (id' & Hid' & Hne) _]; subst.
              congruence.
      * apply String.eqb_neq in He. rewrite IH. split.
        -- intros (pre & page' & post & -> & Hpre & Hi & Htok).
           exists (page :: pre), page', post. repeat split; auto.
           constructor; [exists id; auto | exact Hpre].
        -- intros ([|q pre] & page' & post & Hp & Hpre & Hi & Htok).
           ++ inversion Hp; subst. congruence.
           ++ inversion Hp; subst. inversion Hpre; subst.
              exists pre, page', post. repeat split; auto.
    + split; [discriminate|].
      intros ([|q pre] & page' & post & Hp & Hpre & Hi & Htok).
      * inversion Hp; subst. congruence.
      * inversion Hp; subst. inversion Hpre as [|? ? (id' & Hid' & Hne) _]; subst.
        congruence.
Qed.

Lemma access_token_loop_missing (pages : list (gmap string string))
    (page_id : string) :
  Forall (other_page page_id) pages ->
  FacebookSend._access_token_loop pages page_id
    = Fail (PlatformOperationError (FacebookSend.not_configured page_id)).
Proof.
  induction 1 as [|page pages (id & Hid & Hne) _ IH]; simpl; [reflexivity|].
  rewrite Hid. apply String.eqb_neq in Hne. now rewrite Hne.
Qed.

(** X7. [_access_token] gives the token of the first configured page that
    has the page id of the request's event, the pages before it being
    other pages; and when every configured page is another page, it raises
    the [PlatformOperationError] that names the page id. *)
Theorem access_token_spec (request : FacebookRequest.Self) (page_id : string) :
  FacebookMessage.get_page_id (FacebookRequest.message request)
    = Return page_id ->
  (forall token,
     FacebookSend._access_token request = Ok token <->
     exists pre page post,
       FACEBOOK = pre ++ page :: post
       /\ Forall (other_page page_id) pre
       /\ page !! "page_id" = Some page_id
       /\ page !! "page_token" = Some token)
  /\ (Forall (other_page page_id) FACEBOOK ->
      FacebookSend._access_token request
        = Fail (PlatformOperationError (FacebookSend.not_configured page_id))).
Proof.
  intros Hp. unfold FacebookSend._access_token. rewrite Hp. split.
  - intros token. apply access_token_loop_found.
  - apply access_token_loop_missing.
Qed.

End AccessToken.

Section SendText.

Context `{Collaborators} `{Outside}.
Variable request : FacebookRequest.Self.

Lemma handle_accepted (response : Response) :
  status response = 200 -> FacebookSend._handle_fb_response response = Ok tt.
Proof. unfold FacebookSend._handle_fb_response. now intros ->. Qed.

Lemma handle_refused (response : Response) :
  status response <> 200 ->
  FacebookSend._handle_fb_response response = Fail (refused response).
Proof.
  unfold FacebookSend._handle_fb_response. intros Hs.
  apply Nat.eqb_neq in Hs. now rewrite Hs.
Qed.

Lemma send_with_token (token : string) (content : Content) (log : list Post) :
  FacebookSend._access_token request = Ok token ->
  FacebookSend._send request content log =
    (FacebookSend._handle_fb_response (respond log (post_of request token content)),
     log ++ [post_of request token content]).
Proof.
  intros Ht. unfold FacebookSend._send, io_bind, io_lift. now rewrite Ht.
Qed.

Lemma send_without_token (e : Error) (content : Content) (log : list Post) :
  FacebookSend._access_token request = Fail e ->
  FacebookSend._send request content log = (Fail e, log).
Proof.
  intros Ht. unfold FacebookSend._send, io_bind, io_lift. now rewrite Ht.
Qed.

Lemma send_each_cons (part : string) (rest : list string) (log : list Post) :
  FacebookSend._send_each request (part :: rest) log =
    match FacebookSend._send request (only_text part) log with
    | (Ok _, log') => FacebookSend._send_each request rest log'
    | (Fail e, log') => (Fail e, log')
    end.
Proof. reflexivity. Qed.

Lemma send_each_without_token (e : Error) (ps : list string) (log : list Post) :
  FacebookSend._access_token request = Fail e ->
  ps <> [] ->
  FacebookSend._send_each request ps log = (Fail e, log).
Proof.
  intros Ht Hne. destruct ps as [|part ps]; [congruence|].
  now rewrite send_each_cons, (send_without_token e _ log Ht).
Qed.

(** Neither [_send] nor [_send_each] raises an [IndexError]. *)
Lemma access_token_loop_no_IndexError (pages : list (gmap string string))
    (page_id : string) :
  FacebookSend._access_token_loop pages page_id <> Fail IndexError.
Proof.
  induction pages as [|page pages IH]; simpl; [discriminate|].
  destruct (page !! "page_id") as [id|]; [|discriminate].
  destruct (String.eqb id page_id); [|exact IH].
  destruct (page !! "page_token"); discriminate.
Qed.

Lemma send_no_IndexError (content : Content) (log : list Post) :
  fst (FacebookSend._send request content log) <> Fail IndexError.
Proof.
  destruct (FacebookSend._access_token request) as [token|e] eqn:Ht.
  - rewrite (send_with_token token _ log Ht). simpl.
    unfold FacebookSend._handle_fb_response.
    destruct (negb _); discriminate.
  - rewrite (send_without_token e _ log Ht). simpl. intros [= ->].
    unfold FacebookSend._access_token in Ht.
    destruct (FacebookMessage.get_page_id _); [|discriminate].
    now apply access_token_loop_no_IndexError in Ht.
Qed.

Lemma send_each_no_IndexError (ps : list string) :
  forall log : list Post,
    fst (FacebookSend._send_each request ps log) <> Fail IndexError.
Proof.
  induction ps as [|part ps IH]; intros log; [discriminate|].
  rewrite send_each_cons.
  pose proof (send_no_IndexError (only_text part) log) as Hs.
  destruct (FacebookSend._send request (only_text part) log) as [[[]|e] log'];
    [apply IH | exact Hs].
Qed.

(** [_send_text], once the parts are known. *)
Lemma send_text_run (stack : layers.Stack) (log : list Post) :
  FacebookSend._send_text request stack log =
    let parts := FacebookSend.parts_of request stack in
    match FacebookSend._send_each request (removelast parts) log with
    | (Ok _, log') =>
        match last parts with
        | None => (Fail IndexError, log')
        | Some part =>
            FacebookSend._send request
              (FacebookSend.last_content request stack part) log'
        end
    | (Fail e, log') => (Fail e, log')
    end.
Proof.
  unfold FacebookSend._send_text, io_bind, io_raise. cbv zeta.
  destruct (FacebookSend._send_each _ _ _) as [[[]|e] log']; [|reflexivity].
  now destruct (last _).
Qed.

Variable stack : layers.Stack.

Lemma parts_are_bubbles :
  FacebookSend.parts_of request stack = bubbles request (layers.layers stack).
Proof.
  unfold FacebookSend.parts_of.
  induction (layers.layers stack) as [|layer ls IH]; simpl; [reflexivity|].
  rewrite IH. now destruct layer.
Qed.

Lemma make_qr_dict (option : layers.QuickReplyOption) :
  FacebookSend._make_qr option request = quick_reply_dict request option.
Proof.
  destruct option; simpl; now rewrite insert_empty.
Qed.

Lemma get_quick_replies (ls : list layers.BaseLayer) (ann : option string) :
  layers.get_layer {| layers.layers := ls; layers.annotation := ann |}
                   layers.cQuickRepliesList
  = option_map layers.QuickRepliesList (quick_reply_options ls).
Proof.
  unfold layers.get_layer. simpl.
  induction ls as [|layer ls IH]; simpl; [reflexivity|].
  now destruct layer.
Qed.

Lemma last_content_final (token part : string) :
  post_of request token (FacebookSend.last_content request stack part)
  = final_call request token (layers.layers stack) part.
Proof.
  unfold post_of, final_call, FacebookSend.last_content. destruct stack as [ls ann].
  rewrite get_quick_replies. simpl.
  destruct (quick_reply_options ls) as [options|]; simpl; [|reflexivity].
  do 3 f_equal; try (apply map_ext; intros o; apply make_qr_dict).
Qed.

Lemma all_accepted_cons (log : list Post) (p : Post) (calls : list Post) :
  all_accepted log (p :: calls) ->
  status (respond log p) = 200 /\ all_accepted (log ++ [p]) calls.
Proof.
  intros Ha. split.
  - specialize (Ha [] p calls eq_refl). now rewrite app_nil_r in Ha.
  - intros before q after ->. rewrite <- app_assoc.
    exact (Ha (p :: before) q after eq_refl).
Qed.

Lemma all_accepted_app (log calls1 calls2 : list Post) :
  all_accepted log (calls1 ++ calls2) ->
  all_accepted log calls1 /\ all_accepted (log ++ calls1) calls2.
Proof.
  intros Ha. split.
  - intros before q after ->. apply (Ha before q (after ++ calls2)).
    now rewrite <- app_assoc.
  - intros before q after ->. rewrite <- app_assoc.
    apply (Ha (calls1 ++ before) q after). now rewrite <- app_assoc.
Qed.

Lemma reported_message (response : Response) (m : string) :
  reported response m -> refused response = facebook_says m.
Proof.
  unfold refused, facebook_says, FacebookSend.error_message.
  intros [(body & error & -> & -> & ->)
         | [-> [-> | [(body & -> & ->) | (body & error & -> & -> & ->)]]]];
    reflexivity.
Qed.

Lemma send_each_all_accepted (token : string) :
  FacebookSend._access_token request = Ok token ->
  forall (ps : list string) (log : list Post),
    all_accepted log (map (plain_call request token) ps) ->
    FacebookSend._send_each request ps log =
      (Ok tt, log ++ map (plain_call request token) ps).
Proof.
  intros Ht. induction ps as [|part ps IH]; intros log Ha.
  - simpl. now rewrite app_nil_r.
  - simpl map in Ha. apply all_accepted_cons in Ha as [Hs Ha].
    rewrite send_each_cons, (send_with_token token _ log Ht).
    change (post_of request token (only_text part))
      with (plain_call request token part).
    rewrite (handle_accepted _ Hs), (IH _ Ha), <- app_assoc. reflexivity.
Qed.

Lemma send_each_refused (token : string) :
  FacebookSend._access_token request = Ok token ->
  forall (ps : list string) (log before : list Post) (p : Post)
         (after : list Post) (m : string),
    map (plain_call request token) ps = before ++ p :: after ->
    all_accepted log before ->
    status (respond (log ++ before) p) <> 200 ->
    reported (respond (log ++ before) p) m ->
    FacebookSend._send_each request ps log =
      (Fail (facebook_says m), log ++ before ++ [p]).
Proof.
  intros Ht. induction ps as [|part ps IH];
    intros log before p after m Hm Ha Hs Hr.
  - destruct before; discriminate.
  - rewrite send_each_cons, (send_with_token token _ log Ht).
    change (post_of request token (only_text part))
      with (plain_call request token part).
    destruct before as [|b before]; simpl in Hm;
      inversion Hm as [[Hhead Htail]]; subst.
    + rewrite app_nil_r in Hs, Hr.
      now rewrite (handle_refused _ Hs), (reported_message _ _ Hr).
    + apply all_accepted_cons in Ha as [Hb Ha].
      rewrite (handle_accepted _ Hb).
      assert (Hlog : log ++ plain_call request token part :: before
                     = (log ++ [plain_call request token part]) ++ before)
        by now rewrite <- app_assoc.
      rewrite Hlog in Hs, Hr.
      rewrite (IH (log ++ [plain_call request token part]) before p after m
                 Htail Ha Hs Hr).
      now rewrite <- app_assoc.
Qed.

(** X8. With the page of the request configured and the bubbles of the
    stack being [init] followed by [part], the calls of [_send_text] are
    one call per bubble in that order, to the conversation's Facebook id
    with the page's token: a text alone for each bubble of [init], and for
    [part] its text with the quick replies of the stack's first
    [QuickRepliesList], if any. As long as Facebook answers 200 the calls
    go on, and [_send_text] returns after the last. The first call that is
    answered otherwise, the ones before it having been accepted, is the
    last call made: [_send_text] raises the error that reports Facebook's
    message, and the later calls are not made. *)
Theorem send_text_calls (token : string) (log : list Post)
    (init : list string) (part : string) :
  FacebookSend._access_token request = Ok token ->
  bubbles request (layers.layers stack) = init ++ [part] ->
  let calls := map (plain_call request token) init
               ++ [final_call request token (layers.layers stack) part] in
  let run := FacebookSend._send_text request stack log in
  (all_accepted log calls -> run = (Ok tt, log ++ calls))
  /\ (forall before p after m,
        calls = before ++ p :: after ->
        all_accepted log before ->
        status (respond (log ++ before) p) <> 200 ->
        reported (respond (log ++ before) p) m ->
        run = (Fail (facebook_says m), log ++ before ++ [p])).
Proof.
  intros Ht Hb calls run. subst calls run.
  rewrite send_text_run, parts_are_bubbles, Hb. cbv zeta.
  rewrite removelast_last, last_snoc. split.
  - intros Ha. apply all_accepted_app in Ha as [Hinit Hlast].
    rewrite (send_each_all_accepted token Ht init log Hinit).
    rewrite (send_with_token token _ _ Ht), last_content_final.
    apply all_accepted_cons in Hlast as [Hs _].
    now rewrite (handle_accepted _ Hs), <- app_assoc.
  - intros before p after m Hc Ha Hs Hr.
    destruct (exists_last_or_nil after) as [-> | (after' & x & ->)].
    + apply (app_inj_tail (map (plain_call request token) init) before) in Hc
        as [<- <-].
      rewrite (send_each_all_accepted token Ht init log Ha).
      rewrite (send_with_token token _ _ Ht), last_content_final.
      now rewrite (handle_refused _ Hs), (reported_message _ _ Hr),
        <- app_assoc.
    + change (before ++ p :: after' ++ [x])
        with (before ++ (p :: after') ++ [x]) in Hc.
      rewrite app_assoc in Hc. apply app_inj_tail in Hc as [Hc _].
      now rewrite (send_each_refused token Ht init log before p after' m
                     Hc Ha Hs Hr).
Qed.

(** X9. When the page is configured and Facebook answers 200 to every
    call, [_send_text] on a stack whose bubbles are [init] followed by
    [part] returns after making exactly one call per bubble, in the order
    of the layers: a text alone for each bubble of [init], then the text of
    [part] with the quick replies of the stack's first [QuickRepliesList]
    (the dictionary of each option, in their order), or without quick
    replies when the stack has no such layer. *)
Theorem send_text_all_accepted (token : string) (log : list Post)
    (init : list string) (part : string) :
  FacebookSend._access_token request = Ok token ->
  (forall log p, status (respond log p) = 200) ->
  bubbles request (layers.layers stack) = init ++ [part] ->
  FacebookSend._send_text request stack log =
    (Ok tt,
     log ++ map (plain_call request token) init
         ++ [final_call request token (layers.layers stack) part]).
Proof.
  intros Ht Hok Hb.
  rewrite send_text_run, parts_are_bubbles, Hb. cbv zeta.
  rewrite removelast_last, last_snoc.
  rewrite (send_each_all_accepted token Ht init log)
    by (intros before p after _; apply Hok).
  rewrite (send_with_token token _ _ Ht), last_content_final.
  now rewrite (handle_accepted _ (Hok _ _)), <- app_assoc.
Qed.

(** X10. [_send_text] raises an [IndexError] exactly when the stack has
    no part (no text layer, or texts that wrap to nothing), and then it
    has made no call, whether or not the page is configured. *)
Theorem send_text_IndexError (log : list Post) :
  (fst (FacebookSend._send_text request stack log) = Fail IndexError
   <-> FacebookSend.parts_of request stack = [])
  /\ (FacebookSend.parts_of request stack = [] ->
      FacebookSend._send_text request stack log = (Fail IndexError, log)).
Proof.
  assert (Hempty : FacebookSend.parts_of request stack = [] ->
                   FacebookSend._send_text request stack log
                   = (Fail IndexError, log)).
  { intros Hnil. rewrite send_text_run, Hnil. reflexivity. }
  split; [|exact Hempty]. split.
  - rewrite send_text_run. cbv zeta.
    pose proof (send_each_no_IndexError
                  (removelast (FacebookSend.parts_of request stack)) log) as He.
    destruct (FacebookSend._send_each request _ log) as [[[]|e] log'];
      [|simpl in *; congruence].
    destruct (last (FacebookSend.parts_of request stack)) as [part|] eqn:Hl.
    + intros Hf. now apply send_no_IndexError in Hf.
    + intros _. now apply last_None_nil.
  - intros Hnil. now rewrite (Hempty Hnil).
Qed.

(** X11. When the access token cannot be found (the page is not
    configured, or a key is missing), [_send_text] on a stack that has a
    part raises that error and makes no call. *)
Theorem send_text_without_token (e : Error) (log : list Post) :
  FacebookSend._access_token request = Fail e ->
  FacebookSend.parts_of request stack <> [] ->
  FacebookSend._send_text request stack log = (Fail e, log).
Proof.
  intros Ht Hne. rewrite send_text_run. cbv zeta.
  destruct (last (FacebookSend.parts_of request stack)) as [part|] eqn:Hl.
  - destruct (removelast (FacebookSend.parts_of request stack)) as [|p ps] eqn:Hr.
    + simpl. now apply send_without_token.
    + now rewrite (send_each_without_token e (p :: ps) log Ht).
  - now apply last_None_nil in Hl.
Qed.

End SendText.

Section SendTextLimit.

Context `{Collaborators} `{Outside}.
Variable request : FacebookRequest.Self.

Lemma parts_wrapped (stack : layers.Stack) (part : string) :
  In part (FacebookSend.parts_of request stack) ->
  exists text, In part (wrap text 320).
Proof.
  unfold FacebookSend.parts_of. intros Hin.
  apply in_flat_map in Hin as (layer & _ & Hin).
  destruct layer; simpl in Hin; eauto; contradiction.
Qed.

Lemma In_removelast {A} (l : list A) (x : A) : In x (removelast l) -> In x l.
Proof.
  induction l as [|a [|b l] IH]; simpl; [tauto | tauto |].
  intros [-> | Hin]; [now left | right; now apply IH].
Qed.

Lemma last_In {A} (l : list A) (x : A) : last l = Some x -> In x l.
Proof.
  intros Hl. rewrite (last_removelast l x Hl). apply in_or_app. right. now left.
Qed.

(** A call of [_send] posts at most the message it was given. *)
Lemma send_posts (content : Content) (log : list Post) :
  exists new,
    snd (FacebookSend._send request content log) = log ++ new
    /\ Forall (fun p => post_message p = content) new.
Proof.
  destruct (FacebookSend._access_token request) as [token|e] eqn:Ht.
  - rewrite (send_with_token request token _ log Ht). simpl.
    eexists. split; [reflexivity|]. now repeat constructor.
  - rewrite (send_without_token request e _ log Ht). simpl.
    exists []. rewrite app_nil_r. split; [reflexivity | constructor].
Qed.

Lemma send_each_posts (ps : list string) :
  forall log : list Post,
  exists new,
    snd (FacebookSend._send_each request ps log) = log ++ new
    /\ Forall (fun p => In (content_text (post_message p)) ps) new.
Proof.
  induction ps as [|part ps IH]; intros log.
  - exists []. simpl. rewrite app_nil_r. split; [reflexivity | constructor].
  - rewrite send_each_cons.
    destruct (send_posts (only_text part) log) as (new1 & Hlog1 & Hall1).
    destruct (FacebookSend._send request (only_text part) log) as [[[]|e] log'];
      simpl in Hlog1; subst log'.
    + destruct (IH (log ++ new1)) as (new2 & Hlog2 & Hall2).
      exists (new1 ++ new2). rewrite Hlog2, app_assoc. split; [reflexivity|].
      apply List.Forall_app. split.
      * eapply Forall_impl; [exact Hall1|]. intros p ->. now left.
      * eapply Forall_impl; [exact Hall2|]. intros p Hp. now right.
    + exists new1. split; [reflexivity|].
      eapply Forall_impl; [exact Hall1|]. intros p ->. now left.
Qed.

(** X12. Facebook's limit of 320 characters is kept: as long as the
    wrapping gives lines of at most the width it is asked for, every call
    that [_send_text] makes carries a text of at most 320 characters,
    however long the texts of the stack are. *)
Theorem send_text_within_limit (stack : layers.Stack) (log : list Post) :
  (forall text part, In part (wrap text 320) -> String.length part <= 320) ->
  exists new,
    snd (FacebookSend._send_text request stack log) = log ++ new
    /\ Forall (fun p => String.length (content_text (post_message p)) <= 320)
              new.
Proof.
  intros Hwrap.
  assert (Hpart : forall part, In part (FacebookSend.parts_of request stack) ->
                               String.length part <= 320).
  { intros part Hin. destruct (parts_wrapped stack part Hin) as [text Ht].
    eauto. }
  rewrite send_text_run. cbv zeta.
  destruct (send_each_posts
              (removelast (FacebookSend.parts_of request stack)) log)
    as (new1 & Hlog1 & Hall1).
  assert (Hshort1 : Forall (fun p => String.length (content_text (post_message p))
                                     <= 320) new1).
  { eapply Forall_impl; [exact Hall1|]. intros p Hp.
    apply Hpart. now apply In_removelast. }
  destruct (FacebookSend._send_each request _ log) as [[[]|e] log'];
    simpl in Hlog1; subst log'; [|exists new1; now split].
  destruct (last (FacebookSend.parts_of request stack)) as [part|] eqn:Hl;
    [|exists new1; now split].
  destruct (send_posts (FacebookSend.last_content request stack part)
              (log ++ new1)) as (new2 & Hlog2 & Hall2).
  exists (new1 ++ new2). rewrite Hlog2, app_assoc. split; [reflexivity|].
  apply List.Forall_app. split; [exact Hshort1|].
  eapply Forall_impl; [exact Hall2|]. intros p ->. simpl.
  apply Hpart. now apply last_In.
Qed.

End SendTextLimit.

(** ** Accepting, then sending *)

Section AcceptThenSend.

Context `{StackMatcher}.

Lemma In_contains {V} (d : list (string * V)) (k : string) (v : V) :
  In (k, v) d -> contains d k = true.
Proof.
  unfold contains. induction d as [|[k' v'] d IH]; simpl; [tauto|].
  intros [[= -> ->] | Hin].
  - now rewrite String.eqb_refl.
  - destruct (String.eqb k' k); [reflexivity | now apply IH].
Qed.

(** X13. A stack that [accept] has accepted can be sent: [accept] has
    left the layers as they were and written the name of a registered
    pattern to the annotation, and [send] on that stack, on a platform
    that has a send routine for each pattern, raises nothing, leaves the
    stack alone and goes to the routine of that name. *)
Theorem accept_then_send (self : PlatformClass) (request : Request)
    (stack stack' : layers.Stack) :
  handlers_complete self ->
  Facebook.accept self stack = (Return true, stack') ->
  exists name,
    layers.annotation stack' = Some name
    /\ contains (PATTERNS self) name = true
    /\ layers.layers stack' = layers.layers stack
    /\ Facebook.send self request stack' =
         (Return {| func := ("_send_" ++ name)%string;
                    args := (request, stack') |},
          stack').
Proof.
  intros Hh Ha. unfold Facebook.accept in Ha.
  destruct (accept_loop_cases (PATTERNS self) stack) as [Hno | [name Hf]].
  { rewrite (accept_loop_none _ _ Hno) in Ha. discriminate. }
  rewrite (accept_loop_first _ _ _ Hf) in Ha. inversion Ha; subst stack'.
  assert (Hc : contains (PATTERNS self) name = true).
  { destruct Hf as (pre & pattern & post & Hp & _). rewrite Hp.
    apply In_contains with (v := pattern). apply in_or_app. right. now left. }
  exists name. split; [reflexivity|]. split; [exact Hc|].
  split; [reflexivity|].
  unfold Facebook.send, Facebook.getattr, Facebook.annotation_not_in. run.
  cbn -[String.append]. rewrite Hc. cbn -[String.append].
  now rewrite (contains_handler self name Hh Hc).
Qed.

End AcceptThenSend.

(** ** Listeners of a platform *)

Section PlatformListeners.

Context {BaseMessage Responder Value : Type}.
Variable message : BaseMessage.
Variable responder : Responder.

Lemma notify_loop_app (fsm : bool)
    (l1 l2 : list (@Platform.MessageCallback BaseMessage Responder Value))
    (register : option Value) :
  Platform._notify_loop fsm message responder (l1 ++ l2) register =
    Platform._notify_loop fsm message responder l2
      (Platform._notify_loop fsm message responder l1 register).
Proof.
  revert register. induction l1 as [|cb l1 IH]; intros register; simpl;
    [reflexivity|].
  destruct fsm; simpl; apply IH.
Qed.

Lemma notify_loop_tasks
    (cbs : list (@Platform.MessageCallback BaseMessage Responder Value))
    (register : option Value) :
  Platform._notify_loop true message responder cbs register = register.
Proof. induction cbs as [|cb cbs IH]; simpl; [reflexivity | exact IH]. Qed.

(** X14. Notifying a platform never changes its listeners. When the
    callbacks start their own tasks, it leaves the register as it was;
    when they are awaited, the register ends with what the callback
    registered last returned, whatever the earlier ones returned. *)
Theorem notify_register
    (self : @Platform.Self BaseMessage Responder Value) :
  Platform._listeners (Platform._notify message responder self)
    = Platform._listeners self
  /\ (Platform.fsm_creates_task self = true ->
      Platform._register (Platform._notify message responder self)
        = Platform._register self)
  /\ (Platform.fsm_creates_task self = false ->
      forall cb,
        Platform._register
          (Platform._notify message responder (Platform.on_message cb self))
          = Some (cb message responder false)).
Proof.
  split; [reflexivity|]. split.
  - intros Hf. simpl. rewrite Hf. apply notify_loop_tasks.
  - intros Hf cb. simpl. rewrite Hf, notify_loop_app. reflexivity.
Qed.

End PlatformListeners.

(** ** The sample collaborators keep the contracts that are assumed *)

Lemma remove_one_length (x : string) (l l' : list string) :
  trigram.remove_one x l = Some l' -> length l = S (length l').
Proof.
  revert l'. induction l as [|y l IH]; intros l'; simpl; [discriminate|].
  destruct (String.eqb x y); [now intros [= ->]|].
  destruct (trigram.remove_one x l) as [l0|]; simpl; [|discriminate].
  intros [= <-]. simpl. f_equal. now apply IH.
Qed.

Lemma overlap_le (a : list string) :
  forall b, trigram.overlap a b <= length a /\ trigram.overlap a b <= length b.
Proof.
  induction a as [|x a IH]; intros b; simpl; [lia|].
  destruct (trigram.remove_one x b) as [b'|] eqn:Hr.
  - apply remove_one_length in Hr. destruct (IH b'). lia.
  - destruct (IH b). lia.
Qed.

Lemma similarity_bounds (a b : list string) :
  (0 <= trigram.similarity a b)%Q /\ (trigram.similarity a b <= 1)%Q.
Proof.
  unfold trigram.similarity.
  destruct a as [|x a]; [split; discriminate|].
  destruct b as [|y b]; [split; discriminate|].
  rewrite Qred_correct. destruct (overlap_le (x :: a) (y :: b)) as [Hl Hr].
  set (o := trigram.overlap (x :: a) (y :: b)) in *.
  set (n := length (x :: a) + length (y :: b)) in *.
  assert (Hn : n <> 0) by (subst n; simpl; lia).
  assert (Ho : 2 * o <= n) by (subst n; lia).
  unfold Qle. simpl Qnum. simpl Qden.
  rewrite <- (positive_nat_Z (Pos.of_nat n)), (Nat2Pos.id n Hn).
  split; lia.
Qed.

Lemma Qmax_bounds (a b : Q) :
  (0 <= a)%Q /\ (a <= 1)%Q -> (0 <= b)%Q /\ (b <= 1)%Q ->
  (0 <= trigram.Qmax a b)%Q /\ (trigram.Qmax a b <= 1)%Q.
Proof. unfold trigram.Qmax. now destruct (Qle_bool a b). Qed.

Lemma trigram_best_match_bounds (q : string) (cs : list string) :
  (0 <= @best_match spec_collaborators q cs)%Q
  /\ (@best_match spec_collaborators q cs <= 1)%Q.
Proof.
  simpl. unfold trigram.best_match.
  assert (Hfold : forall best,
            (0 <= best)%Q /\ (best <= 1)%Q ->
            (0 <= fold_left (fun best c => trigram.Qmax best
                       (trigram.similarity (trigram.shingles q)
                                           (trigram.shingles c))) cs best)%Q
            /\ (fold_left (fun best c => trigram.Qmax best
                       (trigram.similarity (trigram.shingles q)
                                           (trigram.shingles c))) cs best <= 1)%Q).
  { induction cs as [|c cs IH]; intros best Hb; simpl; [exact Hb|].
    apply IH, Qmax_bounds; [exact Hb | apply similarity_bounds]. }
  apply Hfold. split; discriminate.
Qed.

Lemma length_string_of_list_ascii (cs : list ascii) :
  String.length (string_of_list_ascii cs) = length cs.
Proof. induction cs as [|c cs IH]; simpl; [reflexivity | now rewrite IH]. Qed.

Lemma sample_wrap_width (text part : string) (width : nat) :
  In part (sample_wrap text width) -> String.length part <= width.
Proof.
  unfold sample_wrap. generalize (String.length text) as fuel.
  generalize (list_ascii_of_string text) as cs.
  intros cs fuel. revert cs.
  induction fuel as [|fuel IH]; intros cs; simpl; [tauto|].
  destruct cs as [|c cs]; [simpl; tauto|].
  intros [<- | Hin]; [|exact (IH _ Hin)].
  rewrite length_string_of_list_ascii.
  apply List.firstn_le_length.
Qed.

(** ** The user and the conversation of an event *)

(** X15. [get_user] and [get_conversation] go together. When the event
    has a ['sender'] with an ['id'], both return: the user and the
    conversation carry that Facebook id, the user under the identifier
    [facebook:user:<id>] and the conversation under
    [facebook:conversation:user:<id>], which differ. When the event has no
    ['sender'], or the sender no ['id'], both raise a [KeyError]; and
    neither raises anything else, nor in any other case. *)
Theorem user_and_conversation (event : Event) :
  (forall d fbid,
     sender event = Some d -> d !! "id" = Some fbid ->
     exists user conversation,
       FacebookMessage.get_user event = Return user
       /\ FacebookMessage.get_conversation event = Return conversation
       /\ FacebookUser.fbid user = fbid
       /\ FacebookConversation.fbid conversation = fbid
       /\ FacebookUser.id user = ("facebook:user:" ++ fbid)%string
       /\ FacebookConversation.id conversation
          = ("facebook:conversation:user:" ++ fbid)%string
       /\ FacebookConversation.id conversation <> FacebookUser.id user)
  /\ (sender event = None
      \/ (exists d, sender event = Some d /\ d !! "id" = None) ->
      FacebookMessage.get_user event = Raise KeyError
      /\ FacebookMessage.get_conversation event = Raise KeyError)
  /\ (forall e,
        FacebookMessage.get_user event = Raise e
        \/ FacebookMessage.get_conversation event = Raise e ->
        e = KeyError
        /\ (sender event = None
            \/ exists d, sender event = Some d /\ d !! "id" = None)).
Proof.
  unfold FacebookMessage.get_user, FacebookMessage.get_conversation, subscript.
  split; [|split].
  - intros d fbid -> ->. simpl.
    exists (FacebookUser.init fbid), (FacebookConversation.init fbid).
    do 6 (split; [reflexivity|]). simpl. discriminate.
  - intros [-> | (d & -> & ->)]; split; reflexivity.
  - intros e. destruct (sender event) as [d|];
      [destruct (d !! "id") as [fbid|] eqn:Hid|]; simpl.
    + intros [He | He]; discriminate.
    + intros [[= <-] | [= <-]]; (split; [reflexivity | right; eauto]).
    + intros [[= <-] | [= <-]]; (split; [reflexivity | now left]).
Qed.

(** ** The further properties on the sample data *)

Lemma triggers_rank_on_scale_witness :
  fst (Choice.rank (Choice.init req_yess None)) = Return (Some (2 # 3)%Q)
  /\ (0 <= 2 # 3)%Q /\ (2 # 3 <= 1)%Q.
Proof.
  split; [run_sample|].
  apply (triggers_rank_on_scale (Anything.init req_yess)
           (Text.init req_yess (intents_getattr "YES"))
           (Choice.init req_yess None) (2 # 3)%Q trigram_best_match_bounds).
  right. right. run_sample.
Defined.

Lemma Choice_rank_score_is_staged_witness :
  exists s params,
    In (s, params) yes_no
    /\ staged (Choice.init req_yess None) "yes" yes_params
       = staged (Choice.init req_yess None) s params
    /\ (Choice.when (Choice.init req_yess None) = None
        \/ Choice.when (Choice.init req_yess None) = Some s).
Proof.
  apply (Choice_rank_score_is_staged (Choice.init req_yess None)
           (staged (Choice.init req_yess None) "yes" yes_params)
           yes_no (2 # 3)%Q);
    [run_sample | run_sample | reflexivity].
Defined.

Lemma get_layers_tokens_witness :
  layers.get_layer
    (layers.Stack_init [layers.RawText "hello"; layers.QuickReply "yes"])
    layers.cQuickReply = Some (layers.QuickReply "yes")
  /\ (FacebookMessage.get_layers
        {| sender := None; recipient := None;
           message := Some {| msg_text := None;
                              msg_quick_reply := Some ∅ |} |}
      = Raise KeyError).
Proof.
  split.
  - apply (proj1 (proj2 (proj2 (get_layers_tokens (sample_event "page-1"))
                          [layers.RawText "hello"; layers.QuickReply "yes"]
                          ltac:(run_sample)))).
  - apply (proj1 (get_layers_tokens _) KeyError). simpl. split; [reflexivity|].
    exists ∅. split; reflexivity.
Defined.

Lemma quick_reply_round_trip_witness :
  exists ls,
    FacebookMessage.get_layers (sample_event "page-1") = Return ls
    /\ (layers.layers (stack req_hello_yes) = ls ->
        Choice.rank (Choice.init req_hello_yes None)
          = (Return (Some 1%Q),
             staged (Choice.init req_hello_yes None) "yes" yes_params)).
Proof.
  apply (quick_reply_round_trip (sample_fb_request "page-1") "yes" "Yes"
           (sample_event "page-1")
           {| msg_text := Some "hello";
              msg_quick_reply := Some {[ "payload" := "yes" ]} |}
           {[ "payload" := "yes" ]}
           (Choice.init req_hello_yes None) yes_no yes_params);
    [reflexivity | reflexivity | run_sample | run_sample | run_sample
    | left; reflexivity].
Defined.

Lemma access_token_spec_witness :
  @FacebookSend._access_token outside_ok (sample_fb_request "page-1")
    = Ok "token-1"
  /\ @FacebookSend._access_token outside_ok (sample_fb_request "page-9")
     = Fail (PlatformOperationError (FacebookSend.not_configured "page-9")).
Proof.
  split.
  - apply (proj1 (@access_token_spec outside_ok (sample_fb_request "page-1")
                    "page-1" ltac:(run_sample)) "token-1").
    exists [ {[ "page_id" := "page-0"; "page_token" := "token-0" ]} ],
           {[ "page_id" := "page-1"; "page_token" := "token-1" ]}, [].
    split; [reflexivity|]. split; [|split; run_sample].
    constructor; [|constructor]. exists "page-0". split; [run_sample | discriminate].
  - apply (proj2 (@access_token_spec outside_ok (sample_fb_request "page-9")
                    "page-9" ltac:(run_sample))).
    constructor; [|constructor; [|constructor]].
    + exists "page-0". split; [run_sample | discriminate].
    + exists "page-1". split; [run_sample | discriminate].
Defined.

(** The bubbles of [hello_stack] are "hello" and "world". The server
    refuses the second call: both calls were made, the second with the
    quick replies, and the error reports the server's message. *)
Lemma send_text_calls_witness :
  @FacebookSend._send_text spec_collaborators outside_refusing
    (sample_fb_request "page-1") hello_stack []
  = (Fail (facebook_says "slow down"),
     [] ++ [plain_call (sample_fb_request "page-1") "token-1" "hello"]
        ++ [@final_call spec_collaborators (sample_fb_request "page-1")
              "token-1" (layers.layers hello_stack) "world"]).
Proof.
  apply (proj2 (@send_text_calls spec_collaborators outside_refusing
                  (sample_fb_request "page-1") hello_stack "token-1" []
                  ["hello"] "world" ltac:(run_sample) ltac:(run_sample))
           [plain_call (sample_fb_request "page-1") "token-1" "hello"]
           (@final_call spec_collaborators (sample_fb_request "page-1")
              "token-1" (layers.layers hello_stack) "world")
           [] "slow down").
  - reflexivity.
  - intros [|b [|c before]] p after Heq; inversion Heq; subst. reflexivity.
  - vm_compute. discriminate.
  - left. exists {[ "error" := {[ "message" := "slow down" ]} ]},
                 {[ "message" := "slow down" ]}.
    split; [reflexivity|]. split; run_sample.
Defined.

Example second_call_refused :
  fst (@FacebookSend._send_text spec_collaborators outside_refusing
         (sample_fb_request "page-1") hello_stack [])
    = Fail (PlatformOperationError
              ("Facebook says: " ++ dquote ++ "slow down" ++ dquote)%string)
  /\ length (snd (@FacebookSend._send_text spec_collaborators outside_refusing
                    (sample_fb_request "page-1") hello_stack [])) = 2.
Proof. split; run_sample. Qed.

(** The calls for [hello_stack], spelled out: "hello" alone, then "world"
    with the two quick replies, the text option first. *)
Example hello_world_calls :
  map post_message
    (snd (@FacebookSend._send_text spec_collaborators outside_ok
            (sample_fb_request "page-1") hello_stack []))
  = [ {| content_text := "hello"; content_quick_replies := None |};
      {| content_text := "world";
         content_quick_replies :=
           Some [ {[ "content_type" := "text"; "title" := "Yes";
                     "payload" := "yes" ]};
                  {[ "content_type" := "location" ]} ] |} ]
  /\ map recipient_id
       (snd (@FacebookSend._send_text spec_collaborators outside_ok
               (sample_fb_request "page-1") hello_stack []))
     = ["user-1"; "user-1"]
  /\ map access_token
       (snd (@FacebookSend._send_text spec_collaborators outside_ok
               (sample_fb_request "page-1") hello_stack []))
     = ["token-1"; "token-1"].
Proof. split; [|split]; run_sample. Qed.

Lemma send_text_all_accepted_witness :
  @FacebookSend._send_text spec_collaborators outside_ok
    (sample_fb_request "page-1") hello_stack []
  = (Ok tt,
     [] ++ map (plain_call (sample_fb_request "page-1") "token-1") ["hello"]
        ++ [@final_call spec_collaborators (sample_fb_request "page-1")
              "token-1" (layers.layers hello_stack) "world"]).
Proof.
  apply (@send_text_all_accepted spec_collaborators outside_ok
           (sample_fb_request "page-1") hello_stack "token-1" []
           ["hello"] "world");
    [run_sample | reflexivity | run_sample].
Defined.

(** A stack that the Facebook patterns accept, and that has no part. *)
Lemma send_text_IndexError_witness :
  Facebook.accept Facebook.cls empty_text_stack
    = (Return true, layers.set_annotation "text" empty_text_stack)
  /\ @FacebookSend._send_text spec_collaborators outside_ok
       (sample_fb_request "page-1")
       (layers.set_annotation "text" empty_text_stack) []
     = (Fail IndexError, []).
Proof.
  split; [run_sample|].
  apply (proj2 (@send_text_IndexError spec_collaborators outside_ok
                  (sample_fb_request "page-1")
                  (layers.set_annotation "text" empty_text_stack) [])).
  run_sample.
Defined.

Lemma send_text_without_token_witness :
  @FacebookSend._send_text spec_collaborators outside_ok
    (sample_fb_request "page-9") hello_stack []
  = (Fail (PlatformOperationError (FacebookSend.not_configured "page-9")), []).
Proof.
  apply (@send_text_without_token spec_collaborators outside_ok
           (sample_fb_request "page-9") hello_stack);
    [run_sample | vm_compute; discriminate].
Defined.

Lemma send_text_within_limit_witness :
  exists new,
    snd (@FacebookSend._send_text spec_collaborators outside_ok
           (sample_fb_request "page-1") hello_stack []) = [] ++ new
    /\ Forall (fun p => String.length (content_text (post_message p)) <= 320)
              new.
Proof.
  apply (@send_text_within_limit spec_collaborators outside_ok
           (sample_fb_request "page-1") hello_stack []).
  intros text part. apply sample_wrap_width.
Defined.

Lemma accept_then_send_witness :
  exists name,
    layers.annotation (layers.set_annotation "text" text_stack) = Some name
    /\ contains (PATTERNS Facebook.cls) name = true
    /\ layers.layers (layers.set_annotation "text" text_stack)
       = layers.layers text_stack
    /\ Facebook.send Facebook.cls req_yess
         (layers.set_annotation "text" text_stack) =
         (Return {| func := ("_send_" ++ name)%string;
                    args := (req_yess, layers.set_annotation "text" text_stack) |},
          layers.set_annotation "text" text_stack).
Proof.
  apply (accept_then_send Facebook.cls req_yess text_stack
           (layers.set_annotation "text" text_stack)
           Facebook_handlers_complete).
  run_sample.
Defined.

Lemma notify_register_witness :
  Platform._register
    (Platform._notify 3 4
       (Platform.on_message cb_product
          (Platform.on_message cb_sum (Platform.init false))))
  = Some 12
  /\ Platform._register
       (Platform._notify 3 4
          (Platform.on_message cb_product
             (Platform.on_message cb_sum (Platform.init true))))
     = None.
Proof.
  split.
  - apply (proj2 (proj2 (notify_register 3 4
                           (Platform.on_message cb_sum (Platform.init false))))
             eq_refl cb_product).
  - apply (proj1 (proj2 (notify_register 3 4
                           (Platform.on_message cb_product
                              (Platform.on_message cb_sum (Platform.init true)))))
             eq_refl).
Defined.

Lemma user_and_conversation_witness :
  (exists user conversation,
     FacebookMessage.get_user (sample_event "page-1") = Return user
     /\ FacebookMessage.get_conversation (sample_event "page-1")
        = Return conversation
     /\ FacebookUser.fbid user = "user-1"
     /\ FacebookConversation.fbid conversation = "user-1"
     /\ FacebookUser.id user = ("facebook:user:" ++ "user-1")%string
     /\ FacebookConversation.id conversation
        = ("facebook:conversation:user:" ++ "user-1")%string
     /\ FacebookConversation.id conversation <> FacebookUser.id user)
  /\ (FacebookMessage.get_user
        {| sender := Some ∅; recipient := None; message := None |}
      = Raise KeyError
      /\ FacebookMessage.get_conversation
           {| sender := Some ∅; recipient := None; message := None |}
         = Raise KeyError).
Proof.
  split.
  - apply (proj1 (user_and_conversation (sample_event "page-1"))
             {[ "id" := "user-1" ]} "user-1"); [reflexivity | run_sample].
  - apply (proj1 (proj2 (user_and_conversation
                           {| sender := Some ∅; recipient := None;
                              message := None |}))).
    right. exists ∅. split; reflexivity.
Defined.
